(** * Agent templates: tool registry, retriever adapter and agent managers

    A shallow embedding of
    - [app/orchestration/tools.py]  (tool registry, [retrieve_info]),
    - [app/rag/retriever.py]        (retriever and re-ranker factories),
    - [app/orchestration/agent.py]  (agent manager life cycle, streaming),
    - [app/utils/input_types.py]    (chat input).

    Python dictionaries are [gmap string _], Python lists are [list],
    exceptions are values of [exn], and a generator is the finite sequence
    of effects it performs when it is driven to its end. *)

From stdpp Require Import gmap strings list fin_maps.

Set Default Proof Using "Type".

(* ===================================================================== *)
(** ** Python exceptions *)
(* ===================================================================== *)

(** The classes of [Exception] that the sources name or provoke.  Signals
    that derive from [BaseException] only ([KeyboardInterrupt],
    [GeneratorExit], ...) are not instances of [Exception] and are not
    values of this type. *)
Inductive exn_class : Type :=
  | NotFound                      (* google.api_core.exceptions.NotFound *)
  | RuntimeError
  | IndexError
  | OtherException (name : string).

Global Instance exn_class_eq_dec : EqDecision exn_class.
Proof. solve_decision. Defined.

(** An exception instance: its class, the message it was constructed
    with, [__cause__] (set by [raise ... from e]) and [__context__] (set
    whenever an exception is raised while another one is being handled). *)
#[local] Set Warnings "-register-all".
Inductive exn : Type :=
  | Exn (cls : exn_class) (msg : string) (cause context : option exn).
#[local] Set Warnings "+register-all".

Definition exn_cls (e : exn) : exn_class :=
  match e with Exn c _ _ _ => c end.
Definition exn_msg (e : exn) : string :=
  match e with Exn _ s _ _ => s end.
Definition exn_cause (e : exn) : option exn :=
  match e with Exn _ _ c _ => c end.
Definition exn_context (e : exn) : option exn :=
  match e with Exn _ _ _ c => c end.

(** [str(e)], which [f"{e}"] interpolates: the message, and for an API
    error the message after its status code. *)
Definition exn_str (e : exn) : string :=
  match exn_cls e with
  | NotFound => "404 " +:+ exn_msg e
  | _ => exn_msg e
  end.

(** [raise C(msg)] inside an [except ... as e] block. *)
Definition raise_during (c : exn_class) (msg : string) (e : exn) : exn :=
  Exn c msg None (Some e).

(** [raise C(msg) from e] inside an [except ... as e] block. *)
Definition raise_from (c : exn_class) (msg : string) (e : exn) : exn :=
  Exn c msg (Some e) (Some e).

(** A result: the value returned or the exception raised. *)
Definition result (A : Type) : Type := exn + A.
Definition returned {A} (x : A) : result A := inr x.
Definition raised {A} (e : exn) : result A := inl e.

(** [seq[i]] on a list or a tuple. *)
Definition subscript {A} (kind : string) (l : list A) (i : nat) : result A :=
  match l !! i with
  | Some x => returned x
  | None => raised (Exn IndexError (kind +:+ " index out of range") None None)
  end.

(* ===================================================================== *)
(** ** Calls to collaborators *)
(* ===================================================================== *)

(** A computation that calls collaborators outside this code and may
    raise: the calls it made, in order, and its result.  A computation
    that raises runs nothing after the raise. *)
Definition traced (E A : Type) : Type := list E * result A.

Definition tr_ret {E A} (x : A) : traced E A := ([], returned x).
Definition tr_raise {E A} (e : exn) : traced E A := ([], raised e).
Definition tr_call {E A} (c : E) (r : result A) : traced E A := ([c], r).
Definition tr_bind {E A B} (m : traced E A) (k : A -> traced E B)
    : traced E B :=
  match m with
  | (done_, inl e) => (done_, raised e)
  | (done_, inr x) => let '(more, r) := k x in (done_ ++ more, r)
  end.
(** [try: m except Exception as e: h e]. *)
Definition tr_try {E A} (m : traced E A) (h : exn -> traced E A)
    : traced E A :=
  match m with
  | (done_, inl e) => let '(more, r) := h e in (done_ ++ more, r)
  | (done_, inr x) => (done_, returned x)
  end.

Notation "'let!' x ':=' m 'in' k" := (tr_bind m (fun x => k))
  (at level 10, x name, m at level 100, k at level 200,
   format "'let!'  x  ':='  m  'in'  '//' k").

(* ===================================================================== *)
(** ** Process environment *)
(* ===================================================================== *)

(** A snapshot of [os.environ]. *)
Abbreviation environ := (gmap string string).

(** [os.environ.get(name, dflt)] and [os.getenv(name, dflt)]. *)
Definition getenv_default (env : environ) (name dflt : string) : string :=
  default dflt (env !! name).

(** [os.getenv(name)], [None] when the variable is absent. *)
Definition getenv (env : environ) (name : string) : option string :=
  env !! name.

(* ===================================================================== *)
(** ** Documents and messages *)
(* ===================================================================== *)

(** [langchain_core.documents.Document]. *)
Record Document : Type := mkDocument {
  page_content : string;
  doc_id : string
}.

(** The message classes of [langchain_core.messages] that the sources
    import or receive. *)
Inductive message_class : Type :=
  | HumanMessage
  | AIMessage
  | AIMessageChunk
  | ToolMessage
  | ToolMessageChunk
  | SystemMessage.

Global Instance message_class_eq_dec : EqDecision message_class.
Proof. solve_decision. Defined.

(** The class hierarchy below [BaseMessage]: a chunk class derives from
    the class of complete messages of the same role. *)
Definition subclass (c d : message_class) : bool :=
  match c, d with
  | AIMessageChunk, AIMessage => true
  | ToolMessageChunk, ToolMessage => true
  | _, _ => bool_decide (c = d)
  end.

Record Message : Type := mkMessage {
  msg_class : message_class;
  content : string;
  tool_call_id : string
}.

(** [isinstance(message, (c1, ..., cn))]. *)
Definition isinstance (m : Message) (classes : list message_class) : bool :=
  existsb (subclass (msg_class m)) classes.

(** [app.utils.input_types.InnerInputChat]. *)
Record InnerInputChat : Type := mkInput {
  messages : list Message;
  user_id : string;
  session_id : string
}.

(* ===================================================================== *)
(** ** Retriever adapter: [app/rag/retriever.py] *)
(* ===================================================================== *)

Module Retriever.

(** What [get_retriever] returns: the [MagicMock] whose [invoke] is
    [lambda x: []], or a [VertexAISearchRetriever]. *)
Inductive retriever : Type :=
  | MockRetriever
  | VertexAISearchRetriever
      (project_id data_store_id location_id : string)
      (engine_data_type : nat).

(** What [get_compressor] returns: the [MagicMock] whose
    [compress_documents] is [lambda documents, query: []], or a
    [VertexAIRank]. *)
Inductive compressor : Type :=
  | MockCompressor
  | VertexAIRank
      (project_id location_id ranking_config title_field : string)
      (top_n : nat).

Definition integration_test (env : environ) : bool :=
  bool_decide (getenv env "INTEGRATION_TEST" = Some "TRUE").

Definition get_retriever (env : environ)
    (project_id data_store_id agent_builder_location : string) : retriever :=
  if integration_test env then MockRetriever
  else VertexAISearchRetriever project_id data_store_id
         agent_builder_location 0.

Definition get_compressor (env : environ) (project_id : string) : compressor :=
  if integration_test env then MockCompressor
  else VertexAIRank project_id "global" "default_ranking_config" "id" 5.

(** Requests that leave the process. *)
Inductive request : Type :=
  | SearchRequest (data_store_id query : string)
  | RankRequest (documents : list Document) (query : string).

(** The managed services, as seen from this process. *)
Record backend : Type := mkBackend {
  search : string -> string -> result (list Document);
  rank : list Document -> string -> nat -> result (list Document)
}.

(** A computation that may send requests and may raise. *)
Abbreviation net := (traced request).

(** [retriever.invoke(query)]. *)
Definition invoke (b : backend) (r : retriever) (query : string)
    : net (list Document) :=
  match r with
  | MockRetriever => tr_ret []
  | VertexAISearchRetriever _ ds _ _ =>
      tr_call (SearchRequest ds query) (search b ds query)
  end.

(** [compressor.compress_documents(documents=..., query=...)]. *)
Definition compress_documents (b : backend) (c : compressor)
    (documents : list Document) (query : string) : net (list Document) :=
  match c with
  | MockCompressor => tr_ret []
  | VertexAIRank _ _ _ _ top_n =>
      tr_call (RankRequest documents query) (rank b documents query top_n)
  end.

End Retriever.

(* ===================================================================== *)
(** ** Tool registry: [app/orchestration/tools.py] *)
(* ===================================================================== *)

Module Tools.
Import Retriever.

(** The tool objects that [get_tools] can put in its list. *)
Inductive tool : Type :=
  | YahooFinanceNewsTool
  | medical_publications_tool
  | google_search_tool
  | google_scholar_tool
  | google_trends_tool
  | google_finance_tool
  | retrieve_info_tool
  | fallback
  | should_continue.

Global Instance tool_eq_dec : EqDecision tool.
Proof. solve_decision. Defined.

(** Module-level configuration, read once from the environment. *)
Definition SERP_API_KEY (env : environ) : string :=
  getenv_default env "SERPER_API_KEY" "unset".
Definition VERTEX_AI_LOCATION (env : environ) : string :=
  getenv_default env "REGION" "us-central1".
Definition AGENT_BUILDER_LOCATION (env : environ) : string :=
  getenv_default env "AGENT_BUILDER_LOCATION" "us".
Definition DATA_STORE_ID (env : environ) : string :=
  getenv_default env "DATA_STORE_ID" "unset".

(** The module-level singletons [retriever] and [compressor]. *)
Definition retriever_obj (env : environ) (project_id : string) : retriever :=
  get_retriever env project_id (DATA_STORE_ID env) (AGENT_BUILDER_LOCATION env).
Definition compressor_obj (env : environ) (project_id : string) : compressor :=
  get_compressor env project_id.

Definition web_tools : list tool :=
  [google_search_tool; google_scholar_tool;
   google_trends_tool; google_finance_tool].

Definition is_industry_tool (t : tool) : bool :=
  match t with
  | YahooFinanceNewsTool | medical_publications_tool => true
  | _ => false
  end.

Section Registry.
(** [app/orchestration/enums.py] is not part of the sources at hand:
    the values of [IndustryType.FINANCE_INDUSTRY],
    [IndustryType.HEALTHCARE_INDUSTRY] and
    [IndustryType.RETAIL_INDUSTRY] are parameters. *)
Variables FINANCE_INDUSTRY HEALTHCARE_INDUSTRY RETAIL_INDUSTRY : string.

(** [app/rag/templates.py] is not part of the sources at hand:
    [format_docs.format(docs=...)] is a parameter. *)
Variable format_docs : list Document -> string.

(** [get_tools(industry_type=None)]; the list is built by successive
    [append] and [extend] on [tools_list]. *)
Definition get_tools (env : environ) (industry_type : option string)
    : list tool :=
  let tools_list := [] in
  let tools_list :=
    if bool_decide (industry_type = Some FINANCE_INDUSTRY)
    then tools_list ++ [YahooFinanceNewsTool]
    else if bool_decide (industry_type = Some HEALTHCARE_INDUSTRY)
    then tools_list ++ [medical_publications_tool]
    else tools_list in
  let tools_list :=
    if bool_decide (SERP_API_KEY env ≠ "unset")
    then tools_list ++ web_tools
    else tools_list in
  let tools_list :=
    if bool_decide (DATA_STORE_ID env ≠ "unset")
    then tools_list ++ [retrieve_info_tool]
    else tools_list in
  tools_list ++ [fallback; should_continue].

(** [retrieve_info(query)], against the module-level singletons. *)
Definition retrieve_info (b : backend) (env : environ)
    (project_id query : string) : net (string * list Document) :=
  let! retrieved_docs :=
    invoke b (retriever_obj env project_id) query in
  let! ranked_docs :=
    compress_documents b (compressor_obj env project_id)
      retrieved_docs query in
  let formatted_docs := format_docs ranked_docs in
  tr_ret (formatted_docs, ranked_docs).

(** The three conditional blocks of [get_tools], one by one. *)
Definition industry_block (industry_type : option string) : list tool :=
  if bool_decide (industry_type = Some FINANCE_INDUSTRY)
  then [YahooFinanceNewsTool]
  else if bool_decide (industry_type = Some HEALTHCARE_INDUSTRY)
  then [medical_publications_tool]
  else [].

Definition web_block (env : environ) : list tool :=
  if bool_decide (SERP_API_KEY env ≠ "unset") then web_tools else [].

Definition retrieval_block (env : environ) : list tool :=
  if bool_decide (DATA_STORE_ID env ≠ "unset")
  then [retrieve_info_tool] else [].

(** The general-purpose tool set: everything but the industry tool. *)
Definition general_purpose_tools (env : environ) : list tool :=
  web_block env ++ retrieval_block env ++ [fallback; should_continue].

End Registry.


(** Every tool object of this module, in the order in which [get_tools]
    reaches the statements that add them. *)
Definition catalogue : list tool :=
  [YahooFinanceNewsTool; medical_publications_tool;
   google_search_tool; google_scholar_tool;
   google_trends_tool; google_finance_tool;
   retrieve_info_tool; fallback; should_continue].

End Tools.

(* ===================================================================== *)
(** ** Iterators and generators *)
(* ===================================================================== *)

(** The iterator returned by an executor's [stream], driven to its end:
    the items it produces, and then exhaustion or an exception. *)
Inductive stream (A : Type) : Type :=
  | Exhausted
  | Fails (e : exn)
  | Item (x : A) (rest : stream A).
Arguments Exhausted {A}.
Arguments Fails {A} e.
Arguments Item {A} x rest.

Fixpoint items {A} (s : stream A) : list A :=
  match s with
  | Exhausted | Fails _ => []
  | Item x rest => x :: items rest
  end.

Fixpoint failure {A} (s : stream A) : option exn :=
  match s with
  | Exhausted => None
  | Fails e => Some e
  | Item _ rest => failure rest
  end.

(** The iterator that produces the items of [l] and then ends as [fin]. *)
Fixpoint produce {A} (l : list A) (fin : stream A) : stream A :=
  match l with
  | [] => fin
  | x :: l' => Item x (produce l' fin)
  end.

Fixpoint stream_filter {A} (keep : A -> bool) (s : stream A) : stream A :=
  match s with
  | Exhausted => Exhausted
  | Fails e => Fails e
  | Item x rest =>
      if keep x then Item x (stream_filter keep rest)
      else stream_filter keep rest
  end.

(** A generator function of this code, driven to its end: the effects it
    performs in order.  It yields a value and goes on, prints a line and
    goes on, returns or raises.  Nothing follows a return or a raise. *)
Inductive gen (A : Type) : Type :=
  | Return
  | Raise (e : exn)
  | Yield (x : A) (k : gen A)
  | Print (line : string) (k : gen A).
Arguments Return {A}.
Arguments Raise {A} e.
Arguments Yield {A} x k.
Arguments Print {A} line k.

(** Statement sequencing: [g] and then, when [g] falls through, [k]. *)
Fixpoint gen_seq {A} (g k : gen A) : gen A :=
  match g with
  | Return => k
  | Raise e => Raise e
  | Yield x g' => Yield x (gen_seq g' k)
  | Print l g' => Print l (gen_seq g' k)
  end.

(** [for x in it: body x]: an exception of the iterator propagates out of
    the loop, an exception of the body ends it. *)
Fixpoint for_each {A B} (it : stream A) (body : A -> gen B) : gen B :=
  match it with
  | Exhausted => Return
  | Fails e => Raise e
  | Item x it' => gen_seq (body x) (for_each it' body)
  end.

(** [try: g except Exception as e: handler e]. *)
Fixpoint try_except {A} (g : gen A) (handler : exn -> gen A) : gen A :=
  match g with
  | Return => Return
  | Raise e => handler e
  | Yield x g' => Yield x (try_except g' handler)
  | Print l g' => Print l (try_except g' handler)
  end.

(** The items the consumer receives. *)
Fixpoint yielded {A} (g : gen A) : list A :=
  match g with
  | Return | Raise _ => []
  | Yield x k => x :: yielded k
  | Print _ k => yielded k
  end.

(** The lines written to standard output. *)
Fixpoint printed {A} (g : gen A) : list string :=
  match g with
  | Return | Raise _ => []
  | Yield _ k => printed k
  | Print l k => l :: printed k
  end.

(** How the generator ends: [None] for a clean return, [Some e] when the
    consumer sees [e] raised. *)
Fixpoint outcome {A} (g : gen A) : option exn :=
  match g with
  | Return => None
  | Raise e => Some e
  | Yield _ k | Print _ k => outcome k
  end.

(** The generator that yields the items of [l] and then ends as [fin]. *)
Fixpoint emit {A} (l : list A) (fin : gen A) : gen A :=
  match l with
  | [] => fin
  | x :: l' => Yield x (emit l' fin)
  end.

(* ===================================================================== *)
(** ** Agent managers: [app/orchestration/agent.py] *)
(* ===================================================================== *)

Module Agent.
Import Tools.

(** Calls that construction makes to its collaborators. *)
Inductive call : Type :=
  | GetToolsCall (industry_type orchestration_framework : string)
  | ChatVertexAICall (model_name : string)
  | SetUpCall.

Global Instance call_eq_dec : EqDecision call.
Proof. solve_decision. Defined.

Definition is_get_tools (c : call) : bool :=
  match c with GetToolsCall _ _ => true | _ => false end.

Section Lifecycle.
(** Floating-point numbers, the chat-model client and the
    framework-owned executor are opaque. *)
Variables float model executor : Type.

(** The arguments of [BaseAgentManager.__init__]. *)
Record AgentConfiguration : Type := mkConfig {
  prompt : string;
  industry_type : string;
  orchestration_framework : string;
  model_name : string;
  max_retries : nat;
  max_output_tokens : option nat;
  temperature : float;
  top_p : option float;
  top_k : option nat;
  return_steps : bool;
  verbose : bool
}.

(** A constructed manager. *)
Record BaseAgentManager : Type := mkManager {
  config : AgentConfiguration;
  tools : list tool;
  model_obj : model;
  agent_executor : executor
}.

(** [app.orchestration.tools.get_tools] as this module imports and
    calls it, with the industry and the framework selector. *)
Variable registry_get_tools : string -> string -> result (list tool).

(** The constructor [ChatVertexAI(...)]. *)
Variable ChatVertexAI : AgentConfiguration -> result model.

(** The abstract hook [set_up], which reads the configuration, the
    tools and the model client from [self]. *)
Variable set_up :
  AgentConfiguration -> list tool -> model -> result executor.

Definition get_tools_method (cfg : AgentConfiguration)
    : traced call (list tool) :=
  tr_call (GetToolsCall (industry_type cfg) (orchestration_framework cfg))
    (registry_get_tools (industry_type cfg) (orchestration_framework cfg)).

Definition get_model_obj (cfg : AgentConfiguration) : traced call model :=
  tr_try
    (tr_call (ChatVertexAICall (model_name cfg)) (ChatVertexAI cfg))
    (fun e =>
       if bool_decide (exn_cls e = NotFound)
       then tr_raise
              (raise_during NotFound ("Resource not found. " +:+ exn_str e) e)
       else tr_raise
              (raise_from RuntimeError
                 ("Error encountered initalizing model resource. "
                    +:+ exn_str e) e)).

(** [BaseAgentManager.__init__]. *)
Definition init (cfg : AgentConfiguration) : traced call BaseAgentManager :=
  let! tools := get_tools_method cfg in
  let! model_obj := get_model_obj cfg in
  let! agent_executor := tr_call SetUpCall (set_up cfg tools model_obj) in
  tr_ret (mkManager cfg tools model_obj agent_executor).

End Lifecycle.

Arguments mkConfig {float}.
Arguments prompt {float}.
Arguments industry_type {float}.
Arguments orchestration_framework {float}.
Arguments model_name {float}.
Arguments max_retries {float}.
Arguments max_output_tokens {float}.
Arguments temperature {float}.
Arguments top_p {float}.
Arguments top_k {float}.
Arguments return_steps {float}.
Arguments verbose {float}.
Arguments mkManager {float model executor}.
Arguments get_tools_method {float}.
Arguments get_model_obj {float model}.
Arguments init {float model executor}.

(** [raise RuntimeError(f"Unexpected error. {e}") from e]. *)
Definition unexpected (e : exn) : exn :=
  raise_from RuntimeError ("Unexpected error. " +:+ exn_str e) e.

(** *** Variant A: [LangChainPrebuiltAgentManager] *)

(** Values found in the chunks of [AgentExecutor.stream]. *)
Inductive pyval : Type :=
  | PStr (s : string)
  | PMessages (ms : list Message)
  | PNone.

Abbreviation chunk := (gmap string pyval).

(** The dictionary handed to [AgentExecutor.stream]. *)
Record executor_input : Type := mkExecutorInput {
  input_key : Message;
  chat_history_key : list Message
}.

Definition stream_query_A
    (agent_executor_stream : executor_input -> stream chunk)
    (input : InnerInputChat) : gen chunk :=
  try_except
    (match subscript "list" (messages input) 0 with
     | inl e => Raise e
     | inr first =>
         for_each
           (agent_executor_stream
              (mkExecutorInput first (drop 1 (messages input))))
           (fun chunk =>
              match chunk !! "output" with
              | Some output => Yield (<["content" := output]> chunk) Return
              | None => Return
              end)
     end)
    (fun e => Raise (unexpected e)).

(** *** Variant B: [LangGraphPrebuiltAgentManager] *)

(** A unit streamed in ["messages"] mode: the tuple of a message and
    the metadata dictionary that goes with it. *)
Abbreviation unit_ := (Message * gmap string string)%type.

Definition stream_query_B
    (agent_executor_stream : InnerInputChat -> string -> stream unit_)
    (input : InnerInputChat) : gen Message :=
  try_except
    (gen_seq
       (for_each (agent_executor_stream input "messages")
          (fun chunk =>
             let message := chunk.1 in
             if isinstance message [AIMessageChunk; AIMessage]
             then Yield message Return
             else if isinstance message [ToolMessage]
             then Print ("ToolMessage received: " +:+ content message) Return
             else Return))
       Return)
    (fun e => Raise (unexpected e)).

(** *** The manager's streaming, in the words of its documentation *)

(** What variant A makes of one chunk. *)
Definition surfaced (c : chunk) : option chunk :=
  match c !! "output" with
  | Some output => Some (<["content" := output]> c)
  | None => None
  end.

Definition is_assistant (m : Message) : bool :=
  bool_decide (msg_class m = AIMessage ∨ msg_class m = AIMessageChunk).

Definition is_tool_result (m : Message) : bool :=
  bool_decide (msg_class m = ToolMessage ∨ msg_class m = ToolMessageChunk).

Definition tool_line (m : Message) : string :=
  "ToolMessage received: " +:+ content m.

(** One turn of variant B's loop, by the class of the leading message. *)
Definition loop_B_turn (m : Message) : gen Message :=
  if is_assistant m then Yield m Return
  else if is_tool_result m then Print (tool_line m) Return
  else Return.

(** A unit that variant B neither forwards nor reports. *)
Definition is_ignored (u : unit_) : bool :=
  negb (is_assistant u.1) && negb (is_tool_result u.1).

(** The calls of a complete construction, in order. *)
Definition construction_calls {float} (cfg : AgentConfiguration float)
    : list call :=
  [GetToolsCall (industry_type cfg) (orchestration_framework cfg);
   ChatVertexAICall (model_name cfg);
   SetUpCall].

Arguments config {float model executor}.
Arguments tools {float model executor}.
Arguments model_obj {float model executor}.
Arguments agent_executor {float model executor}.

(** *** The two concrete managers: constructors and [set_up] *)

Section Variants.
(** The react agent, the execution harness around it and the compiled
    graph are framework-owned and opaque. *)
Variables float model react_agent harness graph : Type.

(** The arguments of [LangChainPrebuiltAgentManager.__init__] and of
    [LangGraphPrebuiltAgentManager.__init__], defaults resolved: those
    of the base class without the framework selector. *)
Record ManagerArguments : Type := mkArguments {
  arg_prompt : string;
  arg_industry_type : string;
  arg_model_name : string;
  arg_max_retries : nat;
  arg_max_output_tokens : option nat;
  arg_temperature : float;
  arg_top_p : option float;
  arg_top_k : option nat;
  arg_return_steps : bool;
  arg_verbose : bool
}.

(** The keyword arguments of [super().__init__(...)]. *)
Definition super_arguments (framework : string) (a : ManagerArguments)
    : AgentConfiguration float :=
  mkConfig (arg_prompt a) (arg_industry_type a) framework (arg_model_name a)
    (arg_max_retries a) (arg_max_output_tokens a) (arg_temperature a)
    (arg_top_p a) (arg_top_k a) (arg_return_steps a) (arg_verbose a).

(** [app/orchestration/enums.py] is not part of the sources at hand: the
    values of [OrchestrationFramework.LANGCHAIN_PREBUILT_AGENT] and
    [OrchestrationFramework.LANGGRAPH_PREBUILT_AGENT] are parameters. *)
Variables LANGCHAIN_PREBUILT_AGENT LANGGRAPH_PREBUILT_AGENT : string.

Variable registry_get_tools : string -> string -> result (list tool).
Variable ChatVertexAI : AgentConfiguration float -> result model.

(** [langchain.agents.create_react_agent(prompt=..., llm=..., tools=...)]. *)
Variable langchain_create_react_agent :
  string -> model -> list tool -> result react_agent.

(** [AgentExecutor(agent=..., tools=..., return_intermediate_steps=...,
    verbose=...)]. *)
Variable AgentExecutor :
  react_agent -> list tool -> bool -> bool -> result harness.

(** [langgraph.prebuilt.create_react_agent(prompt=..., model=...,
    tools=..., debug=...)]. *)
Variable langgraph_create_react_agent :
  string -> model -> list tool -> bool -> result graph.

(** [LangChainPrebuiltAgentManager.set_up]. *)
Definition set_up_A (cfg : AgentConfiguration float) (tools : list tool)
    (model_obj : model) : result harness :=
  match langchain_create_react_agent (prompt cfg) model_obj tools with
  | inl e => raised e
  | inr agent => AgentExecutor agent tools (return_steps cfg) (verbose cfg)
  end.

(** [LangGraphPrebuiltAgentManager.set_up]. *)
Definition set_up_B (cfg : AgentConfiguration float) (tools : list tool)
    (model_obj : model) : result graph :=
  langgraph_create_react_agent (prompt cfg) model_obj tools (verbose cfg).

(** [LangChainPrebuiltAgentManager(...)]. *)
Definition LangChainPrebuiltAgentManager (a : ManagerArguments)
    : traced call (BaseAgentManager float model harness) :=
  init registry_get_tools ChatVertexAI set_up_A
    (super_arguments LANGCHAIN_PREBUILT_AGENT a).

(** [LangGraphPrebuiltAgentManager(...)]. *)
Definition LangGraphPrebuiltAgentManager (a : ManagerArguments)
    : traced call (BaseAgentManager float model graph) :=
  init registry_get_tools ChatVertexAI set_up_B
    (super_arguments LANGGRAPH_PREBUILT_AGENT a).

End Variants.

Arguments mkArguments {float}.
Arguments arg_prompt {float}.
Arguments arg_industry_type {float}.
Arguments arg_model_name {float}.
Arguments arg_return_steps {float}.
Arguments arg_verbose {float}.
Arguments super_arguments {float}.
Arguments set_up_A {float model react_agent harness}.
Arguments set_up_B {float model graph}.
Arguments LangChainPrebuiltAgentManager {float model react_agent harness}.
Arguments LangGraphPrebuiltAgentManager {float model graph}.

(** *** Deployment: [deploy_agent_to_reasoning_engine] *)

(** Calls that deployment makes to its collaborators. *)
Inductive deploy_call : Type :=
  | RequirementsCall
  | CreateCall (requirements : list string)
      (display_name description : string) (extra_packages : list string).

Section Deployment.
(** The manager that is shipped and the remote handle are opaque. *)
Variables manager remote_engine : Type.

(** [app/orchestration/config.py] is not part of the sources at hand:
    [USER_AGENT] and [AGENT_DESCRIPTION] are parameters. *)
Variables USER_AGENT AGENT_DESCRIPTION : string.

(** [app.utils.utils.get_requirements_from_toml()]. *)
Variable get_requirements_from_toml : result (list string).

(** [reasoning_engines.ReasoningEngine.create(agent_manager,
    requirements=..., display_name=..., description=...,
    extra_packages=...)]. *)
Variable ReasoningEngine_create :
  manager -> list string -> string -> string -> list string
  -> result remote_engine.

(** The arguments of [create] are evaluated, in order, inside the [try]
    block, before [create] itself is entered. *)
Definition deploy_agent_to_reasoning_engine (agent_manager : manager)
    : traced deploy_call remote_engine :=
  let! remote_agent :=
    tr_try
      (let! requirements :=
         tr_call RequirementsCall get_requirements_from_toml in
       let extra_packages := ["./app"; "./deployment/env"] in
       tr_call
         (CreateCall requirements USER_AGENT AGENT_DESCRIPTION extra_packages)
         (ReasoningEngine_create agent_manager requirements
            USER_AGENT AGENT_DESCRIPTION extra_packages))
      (fun e =>
         tr_raise
           (raise_from RuntimeError
              ("Error deploying Reasoning Engine Agent. " +:+ exn_str e) e)) in
  tr_ret remote_agent.

End Deployment.

Arguments deploy_agent_to_reasoning_engine {manager remote_engine}.

End Agent.

(* ===================================================================== *)
(** ** HTTP server: [app/server.py] *)
(* ===================================================================== *)

Module Server.

(** The keyword arguments with which [CORSMiddleware] is registered. *)
Record CORSMiddleware : Type := mkCORS {
  allow_origins : list string;
  allow_credentials : bool;
  allow_methods : list string;
  allow_headers : list string
}.

(** [configure_cors(app)]: the middleware it adds to [app].  The test
    [not os.getenv("FRONTEND_URL")] holds for an absent variable and for
    an empty one. *)
Definition configure_cors (env : environ) : CORSMiddleware :=
  let url :=
    match getenv env "FRONTEND_URL" with
    | None => "http://localhost:4200"
    | Some v =>
        if bool_decide (v = EmptyString) then "http://localhost:4200" else v
    end in
  mkCORS [url] true ["*"] ["*"].

End Server.

(* ===================================================================== *)
(** ** Sample data *)
(* ===================================================================== *)

Module Samples.
Import Retriever Tools Agent.

(** Environments. *)
Definition bare_env : environ := ∅.
Definition keyed_env : environ :=
  {[ "SERPER_API_KEY" := "k-123"; "DATA_STORE_ID" := "store-1" ]}.

(** A backend with one document in its index. *)
Definition one_doc : Document := mkDocument "ETF overview" "doc-0".
Definition sample_backend : backend :=
  mkBackend (fun _ _ => returned [one_doc])
            (fun docs _ top_n => returned (take top_n docs)).

Definition newline : string := String (Ascii.ascii_of_nat 10) EmptyString.

(** A template that lists the page contents, one per line. *)
Definition plain_template (docs : list Document) : string :=
  foldr (fun d acc => page_content d +:+ newline +:+ acc) EmptyString docs.

(** Messages. *)
Definition human_hi : Message := mkMessage HumanMessage "hi" EmptyString.
Definition ai_delta : Message := mkMessage AIMessageChunk "Hel" EmptyString.
Definition tool_result : Message := mkMessage ToolMessage "42" "call-1".
Definition no_metadata : gmap string string := ∅.

Definition one_turn : InnerInputChat := mkInput [human_hi] "u1" "s1".
Definition no_turn : InnerInputChat := mkInput [] "u1" "s1".

(** Three chunks of variant A's executor; only the last is final. *)
Definition action_chunk : chunk := {[ "actions" := PStr "search" ]}.
Definition step_chunk : chunk := {[ "steps" := PStr "observation" ]}.
Definition final_chunk : chunk :=
  {[ "output" := PStr "hello"; "messages" := PMessages [] ]}.

Definition three_chunks (_ : executor_input) : stream chunk :=
  produce [action_chunk; step_chunk; final_chunk] Exhausted.

Definition timeout_error : exn :=
  Exn (OtherException "DeadlineExceeded") "504 deadline exceeded" None None.

Definition chunk_then_timeout (_ : executor_input) : stream chunk :=
  produce [final_chunk] (Fails timeout_error).

(** Units of variant B's executor. *)
Definition delta_then_tool (_ : InnerInputChat) (_ : string) : stream unit_ :=
  produce [(ai_delta, no_metadata); (tool_result, no_metadata)] Exhausted.

Definition delta_then_timeout (_ : InnerInputChat) (_ : string)
    : stream unit_ :=
  produce [(ai_delta, no_metadata)] (Fails timeout_error).

(** Construction with a model name that the platform does not know. *)
Definition sample_config : AgentConfiguration unit :=
  mkConfig "You are helpful." "finance" "langchain_prebuilt_agent"
    "no-such-model" 6 None tt None None false true.

Definition model_missing : exn :=
  Exn NotFound "Publisher Model not found" None None.

Definition sample_registry (_ _ : string) : result (list tool) :=
  returned [fallback; should_continue].
Definition failing_client (_ : AgentConfiguration unit) : result unit :=
  raised model_missing.
Definition sample_set_up (_ : AgentConfiguration unit) (_ : list tool)
    (_ : unit) : result unit :=
  returned tt.

(** Further collaborators of construction. *)
Definition working_client (_ : AgentConfiguration unit) : result unit :=
  returned tt.
Definition quota_error : exn :=
  Exn (OtherException "ResourceExhausted") "quota exceeded" None None.
Definition throttled_client (_ : AgentConfiguration unit) : result unit :=
  raised quota_error.
Definition failing_registry (_ _ : string) : result (list tool) :=
  raised quota_error.
Definition failing_set_up (_ : AgentConfiguration unit) (_ : list tool)
    (_ : unit) : result unit :=
  raised quota_error.

(** A backend whose ranker is unreachable. *)
Definition rank_down : backend :=
  mkBackend (fun _ _ => returned [one_doc])
            (fun _ _ _ => raised timeout_error).

(** Environments that differ outside the two feature flags. *)
Definition keyed_env_elsewhere : environ :=
  <[ "REGION" := "europe-west1" ]> keyed_env.
Definition frontend_env : environ :=
  {[ "FRONTEND_URL" := "https://chat.example.org" ]}.
Definition blank_frontend_env : environ :=
  {[ "FRONTEND_URL" := EmptyString ]}.

(** Arguments and collaborators of the concrete managers. *)
Definition sample_arguments : ManagerArguments unit :=
  mkArguments "You are helpful." "healthcare" "gemini" 6 None tt None None
    false true.
Definition sample_react (_ : string) (_ : unit) (ts : list tool)
    : result (list tool) :=
  returned ts.
Definition sample_harness (agent : list tool) (ts : list tool)
    (_ _ : bool) : result (list tool * list tool) :=
  returned (agent, ts).
Definition sample_graph (_ : string) (_ : unit) (ts : list tool) (_ : bool)
    : result (list tool) :=
  returned ts.

(** Collaborators of deployment. *)
Definition sample_requirements : result (list string) :=
  returned ["langchain"; "langgraph"].
Definition unreadable_requirements : result (list string) :=
  raised (Exn (OtherException "FileNotFoundError") "pyproject.toml" None None).
Definition sample_create (_ : unit) (_ : list string) (_ _ : string)
    (_ : list string) : result string :=
  returned "reasoningEngines/1".

End Samples.

(* ===================================================================== *)
(** ** Statements under test that the code does not meet *)
(* ===================================================================== *)

Module Stated.
Import Retriever Tools Agent.

(** Construction with an unresolvable model name fails with [NotFound]
    before any tool set is resolved and before [set_up] runs. *)
Definition not_found_before_tools : Prop :=
  ∀ (float model executor : Type)
    (registry_get_tools : string -> string -> result (list tool))
    (ChatVertexAI : AgentConfiguration float -> result model)
    (set_up : AgentConfiguration float -> list tool -> model
              -> result executor)
    (cfg : AgentConfiguration float) (e : exn),
    ChatVertexAI cfg = raised e →
    exn_cls e = NotFound →
    let r := init registry_get_tools ChatVertexAI set_up cfg in
    (∃ e', r.2 = raised e' ∧ exn_cls e' = NotFound)
    ∧ (∀ c, c ∈ r.1 → is_get_tools c = false)
    ∧ SetUpCall ∉ r.1.

End Stated.

(* ===================================================================== *)
(** ** Properties of the tool registry *)
(* ===================================================================== *)

Section RegistryFacts.
Import Tools.
Variables FIN HC : string.
Implicit Types (env : environ) (sel : option string).

Lemma get_tools_blocks env sel :
  get_tools FIN HC env sel
  = industry_block FIN HC sel ++ general_purpose_tools env.
Proof.
  unfold get_tools, industry_block, general_purpose_tools,
    web_block, retrieval_block.
  repeat case_bool_decide; simpl; by rewrite <- ?app_assoc.
Qed.

Lemma industry_block_cases sel :
  industry_block FIN HC sel = []
  ∨ industry_block FIN HC sel = [YahooFinanceNewsTool]
  ∨ industry_block FIN HC sel = [medical_publications_tool].
Proof. unfold industry_block. repeat case_bool_decide; auto. Qed.

Lemma web_block_cases env :
  (SERP_API_KEY env = "unset" ∧ web_block env = [])
  ∨ (SERP_API_KEY env ≠ "unset" ∧ web_block env = web_tools).
Proof.
  unfold web_block. case_bool_decide as H; [by right|left].
  split; [|done]. by destruct (decide (SERP_API_KEY env = "unset")).
Qed.

Lemma retrieval_block_cases env :
  retrieval_block env = [] ∨ retrieval_block env = [retrieve_info_tool].
Proof. unfold retrieval_block. case_bool_decide; auto. Qed.

End RegistryFacts.

Import Tools.

(** C5.  For every industry selector and every environment, the list that
    [get_tools] returns ends with the fallback tool followed by the
    stop-reasoning tool: both are present, they are the last two elements
    in that order, and neither occurs earlier in the list. *)
Theorem get_tools_fallback_stop_last (FIN HC : string) (env : environ)
    (sel : option string) :
  ∃ pre : list tool,
    get_tools FIN HC env sel = pre ++ [fallback; should_continue]
    ∧ (fallback ∉ pre) ∧ (should_continue ∉ pre).
Proof.
  exists (industry_block FIN HC sel ++ web_block env ++ retrieval_block env).
  split.
  - rewrite get_tools_blocks. unfold general_purpose_tools.
    by rewrite <- !app_assoc.
  - destruct (industry_block_cases FIN HC sel) as [-> | [-> | ->]];
      destruct (web_block_cases env) as [[_ ->] | [_ ->]];
      destruct (retrieval_block_cases env) as [-> | ->];
      split; apply (bool_decide_unpack _); vm_compute; exact I.
Qed.

(** C6.  For every industry selector: when the search-API key read from
    the environment is the sentinel "unset", none of the four web tools
    is in the list of [get_tools]; when it is anything else, the four
    occur in the list as one contiguous block, in the order search,
    scholar, trends, finance, and nowhere else. *)
Theorem get_tools_web_block (FIN HC : string) (env : environ)
    (sel : option string) :
  (SERP_API_KEY env = "unset" →
     ∀ t, t ∈ web_tools → t ∉ get_tools FIN HC env sel)
  ∧ (SERP_API_KEY env ≠ "unset" →
     ∃ pre post : list tool,
       get_tools FIN HC env sel
       = pre ++ [google_search_tool; google_scholar_tool;
                 google_trends_tool; google_finance_tool] ++ post
       ∧ ∀ t, t ∈ web_tools → (t ∉ pre) ∧ (t ∉ post)).
Proof.
  rewrite get_tools_blocks. unfold general_purpose_tools. split.
  - intros Hunset t Ht.
    destruct (web_block_cases env) as [[_ ->] | [Hset _]]; [|done].
    destruct (industry_block_cases FIN HC sel) as [-> | [-> | ->]];
      destruct (retrieval_block_cases env) as [-> | ->];
      revert t Ht; apply Forall_forall;
      apply (bool_decide_unpack _); vm_compute; exact I.
  - intros Hset.
    destruct (web_block_cases env) as [[Hunset _] | [_ ->]]; [done|].
    exists (industry_block FIN HC sel),
      (retrieval_block env ++ [fallback; should_continue]).
    split; [done|]. intros t Ht.
    destruct (industry_block_cases FIN HC sel) as [-> | [-> | ->]];
      destruct (retrieval_block_cases env) as [-> | ->];
      revert t Ht; apply Forall_forall;
      apply (bool_decide_unpack _); vm_compute; exact I.
Qed.

(** A concrete run of C6: without a key in the environment the key is the
    sentinel and the list holds no web tool; with a key the four are
    there in one block. *)
Lemma get_tools_web_block_witness :
  SERP_API_KEY Samples.bare_env = "unset"
  ∧ SERP_API_KEY Samples.keyed_env ≠ "unset"
  ∧ (google_scholar_tool
     ∉ get_tools "finance" "healthcare" Samples.bare_env None)
  ∧ ∃ pre post : list tool,
      get_tools "finance" "healthcare" Samples.keyed_env (Some "finance")
      = pre ++ web_tools ++ post.
Proof.
  assert (Hbare : SERP_API_KEY Samples.bare_env = "unset") by reflexivity.
  assert (Hkeyed : SERP_API_KEY Samples.keyed_env ≠ "unset")
    by (vm_compute; discriminate).
  split; [exact Hbare|]. split; [exact Hkeyed|]. split.
  - apply (proj1 (get_tools_web_block "finance" "healthcare"
                    Samples.bare_env None) Hbare google_scholar_tool).
    apply (bool_decide_unpack _); vm_compute; exact I.
  - destruct (proj2 (get_tools_web_block "finance" "healthcare"
                       Samples.keyed_env (Some "finance")) Hkeyed)
      as (pre & post & Heq & _).
    exists pre, post. exact Heq.
Defined.

(** C7.  [get_tools] adds at most one industry tool, chosen by equality
    with the selector: the finance selector adds the finance-news tool
    alone, the healthcare selector the medical-publications tool alone,
    the reserved retail selector none; for a selector that is absent or
    matches neither, no industry tool is added and the result is the
    general-purpose set, in which the web block and the retrieval tool
    are still included by their own conditions and the fallback and stop
    tools always are. *)
Theorem get_tools_industry_choice (FIN HC RETAIL : string) (env : environ)
    (sel : option string)
    (Hfh : FIN ≠ HC) (Hrf : RETAIL ≠ FIN) (Hrh : RETAIL ≠ HC) :
  length (List.filter is_industry_tool (get_tools FIN HC env sel)) ≤ 1
  ∧ get_tools FIN HC env (Some FIN)
    = YahooFinanceNewsTool :: general_purpose_tools env
  ∧ get_tools FIN HC env (Some HC)
    = medical_publications_tool :: general_purpose_tools env
  ∧ get_tools FIN HC env (Some RETAIL) = general_purpose_tools env
  ∧ get_tools FIN HC env None = general_purpose_tools env
  ∧ (sel ≠ Some FIN → sel ≠ Some HC →
     get_tools FIN HC env sel = general_purpose_tools env)
  ∧ List.filter is_industry_tool (general_purpose_tools env) = []
  ∧ general_purpose_tools env
    = (if bool_decide (SERP_API_KEY env ≠ "unset") then web_tools else [])
      ++ (if bool_decide (DATA_STORE_ID env ≠ "unset")
          then [retrieve_info_tool] else [])
      ++ [fallback; should_continue].
Proof.
  assert (Hgen : List.filter is_industry_tool (general_purpose_tools env) = []).
  { unfold general_purpose_tools.
    destruct (web_block_cases env) as [[_ ->] | [_ ->]];
      destruct (retrieval_block_cases env) as [-> | ->]; reflexivity. }
  rewrite !get_tools_blocks. split_and!.
  - rewrite List.filter_app, Hgen, app_nil_r.
    destruct (industry_block_cases FIN HC sel) as [-> | [-> | ->]];
      simpl; lia.
  - unfold industry_block. by rewrite bool_decide_eq_true_2.
  - unfold industry_block.
    rewrite bool_decide_eq_false_2 by congruence.
    by rewrite bool_decide_eq_true_2.
  - unfold industry_block.
    by rewrite !bool_decide_eq_false_2 by congruence.
  - unfold industry_block.
    by rewrite !bool_decide_eq_false_2 by congruence.
  - intros Hf Hh. unfold industry_block.
    by rewrite !bool_decide_eq_false_2 by congruence.
  - exact Hgen.
  - reflexivity.
Qed.

(** A concrete run of C7 with the selector values "finance",
    "healthcare" and "retail". *)
Lemma get_tools_industry_choice_witness :
  "finance" ≠ "healthcare" ∧ "retail" ≠ "finance" ∧ "retail" ≠ "healthcare"
  ∧ get_tools "finance" "healthcare" Samples.keyed_env (Some "healthcare")
    = medical_publications_tool :: general_purpose_tools Samples.keyed_env
  ∧ get_tools "finance" "healthcare" Samples.keyed_env (Some "retail")
    = general_purpose_tools Samples.keyed_env.
Proof.
  assert (H1 : "finance" ≠ "healthcare") by discriminate.
  assert (H2 : "retail" ≠ "finance") by discriminate.
  assert (H3 : "retail" ≠ "healthcare") by discriminate.
  split; [exact H1|]. split; [exact H2|]. split; [exact H3|].
  destruct (get_tools_industry_choice "finance" "healthcare" "retail"
              Samples.keyed_env (Some "retail") H1 H2 H3)
    as (_ & _ & Hhc & Hretail & _).
  split; [exact Hhc | exact Hretail].
Defined.

(* ===================================================================== *)
(** ** Properties of the retriever adapter *)
(* ===================================================================== *)

Import Retriever.




(* ===================================================================== *)
(** ** Properties of agent-manager construction *)
(* ===================================================================== *)

Import Agent.

Section Construction.
Context {float model executor : Type}.
Variable registry_get_tools : string -> string -> result (list tool).
Variable ChatVertexAI : AgentConfiguration float -> result model.
Variable set_up :
  AgentConfiguration float -> list tool -> model -> result executor.

Lemma get_model_obj_not_found cfg e :
  ChatVertexAI cfg = raised e →
  exn_cls e = NotFound →
  get_model_obj ChatVertexAI cfg
  = ([ChatVertexAICall (model_name cfg)],
     raised (raise_during NotFound ("Resource not found. " +:+ exn_str e) e)).
Proof.
  intros Hctor Hcls. unfold get_model_obj, tr_try, tr_call.
  rewrite Hctor. unfold raised. by rewrite bool_decide_eq_true_2.
Qed.

Lemma get_model_obj_other_error cfg e :
  ChatVertexAI cfg = raised e →
  exn_cls e ≠ NotFound →
  get_model_obj ChatVertexAI cfg
  = ([ChatVertexAICall (model_name cfg)],
     raised (raise_from RuntimeError
               ("Error encountered initalizing model resource. "
                  +:+ exn_str e) e)).
Proof.
  intros Hctor Hcls. unfold get_model_obj, tr_try, tr_call.
  rewrite Hctor. unfold raised. by rewrite bool_decide_eq_false_2.
Qed.

Lemma init_registry_fails cfg e :
  registry_get_tools (industry_type cfg) (orchestration_framework cfg)
  = raised e →
  init registry_get_tools ChatVertexAI set_up cfg
  = ([GetToolsCall (industry_type cfg) (orchestration_framework cfg)],
     raised e).
Proof.
  intros Htools. unfold init, get_tools_method, tr_call, tr_bind.
  by rewrite Htools.
Qed.

End Construction.

(** C1, as the code has it.  When the tool registry has returned a tool
    set and the chat-model constructor then fails with a model-not-found
    error [e], construction raises a [NotFound] whose message is
    "Resource not found. " followed by [str(e)] and whose context is [e];
    the calls made are the tool registry first and the model constructor
    second, and [set_up] is never invoked, so no executor is built. *)
Theorem init_model_not_found {float model executor : Type}
    (registry_get_tools : string -> string -> result (list tool))
    (ChatVertexAI : AgentConfiguration float -> result model)
    (set_up : AgentConfiguration float -> list tool -> model
              -> result executor)
    (cfg : AgentConfiguration float) (e : exn) (ts : list tool) :
  registry_get_tools (industry_type cfg) (orchestration_framework cfg)
  = returned ts →
  ChatVertexAI cfg = raised e →
  exn_cls e = NotFound →
  init registry_get_tools ChatVertexAI set_up cfg
  = ([GetToolsCall (industry_type cfg) (orchestration_framework cfg);
      ChatVertexAICall (model_name cfg)],
     raised (Exn NotFound ("Resource not found. " +:+ exn_str e)
               None (Some e)))
  ∧ SetUpCall ∉ (init registry_get_tools ChatVertexAI set_up cfg).1.
Proof.
  intros Htools Hctor Hcls.
  assert (Hinit : init registry_get_tools ChatVertexAI set_up cfg
    = ([GetToolsCall (industry_type cfg) (orchestration_framework cfg);
        ChatVertexAICall (model_name cfg)],
       raised (Exn NotFound ("Resource not found. " +:+ exn_str e)
                 None (Some e)))).
  { unfold init, get_tools_method, tr_call. rewrite Htools.
    unfold returned, tr_bind at 1.
    by rewrite (get_model_obj_not_found ChatVertexAI cfg e Hctor Hcls). }
  split; [exact Hinit|]. rewrite Hinit. simpl.
  intros Hin. apply elem_of_cons in Hin as [Hin | Hin]; [discriminate|].
  apply elem_of_cons in Hin as [Hin | Hin]; [discriminate|].
  by apply elem_of_nil in Hin.
Qed.

(** A concrete run of C1: the registry answers, the platform does not
    know the model. *)
Lemma init_model_not_found_witness :
  Samples.sample_registry "finance" "langchain_prebuilt_agent"
  = returned [fallback; should_continue]
  ∧ Samples.failing_client Samples.sample_config
    = raised Samples.model_missing
  ∧ exn_cls Samples.model_missing = NotFound
  ∧ init Samples.sample_registry Samples.failing_client
      Samples.sample_set_up Samples.sample_config
    = ([GetToolsCall "finance" "langchain_prebuilt_agent";
        ChatVertexAICall "no-such-model"],
       raised (Exn NotFound
                 "Resource not found. 404 Publisher Model not found"
                 None (Some Samples.model_missing))).
Proof.
  split; [reflexivity|]. split; [reflexivity|]. split; [reflexivity|].
  exact (proj1 (init_model_not_found Samples.sample_registry
                  Samples.failing_client Samples.sample_set_up
                  Samples.sample_config Samples.model_missing
                  [fallback; should_continue] eq_refl eq_refl eq_refl)).
Defined.

(** C1, as stated, fails: the tool set is resolved before the model
    constructor is called, so a construction that ends in the
    model-not-found failure has already called the tool registry. *)
Lemma tools_resolved_before_model :
  Samples.failing_client Samples.sample_config = raised Samples.model_missing
  ∧ exn_cls Samples.model_missing = NotFound
  ∧ (init Samples.sample_registry Samples.failing_client
       Samples.sample_set_up Samples.sample_config).1
    = [GetToolsCall "finance" "langchain_prebuilt_agent";
       ChatVertexAICall "no-such-model"]
  ∧ ¬ Stated.not_found_before_tools.
Proof.
  split; [reflexivity|]. split; [reflexivity|]. split; [reflexivity|].
  intros Hclaim.
  destruct (Hclaim unit unit unit Samples.sample_registry
              Samples.failing_client Samples.sample_set_up
              Samples.sample_config Samples.model_missing eq_refl eq_refl)
    as (_ & Hnone & _).
  specialize (Hnone (GetToolsCall "finance" "langchain_prebuilt_agent")).
  assert (Hin : GetToolsCall "finance" "langchain_prebuilt_agent"
                ∈ (init Samples.sample_registry Samples.failing_client
                     Samples.sample_set_up Samples.sample_config).1)
    by (vm_compute; apply list_elem_of_here).
  specialize (Hnone Hin). discriminate Hnone.
Qed.

(* ===================================================================== *)
(** ** Properties of generators *)
(* ===================================================================== *)

Section GeneratorFacts.
Context {A B : Type}.
Implicit Types (g k : gen B) (s : stream A) (body : A → gen B).

Lemma yielded_gen_seq g k :
  yielded (gen_seq g k)
  = yielded g ++ (if outcome g is None then yielded k else []).
Proof. induction g as [|e|x g IH|l g IH]; simpl; by rewrite ?IH. Qed.

Lemma printed_gen_seq g k :
  printed (gen_seq g k)
  = printed g ++ (if outcome g is None then printed k else []).
Proof. induction g as [|e|x g IH|l g IH]; simpl; by rewrite ?IH. Qed.

Lemma outcome_gen_seq g k :
  outcome (gen_seq g k)
  = (if outcome g is Some e then Some e else outcome k).
Proof. induction g as [|e|x g IH|l g IH]; simpl; by rewrite ?IH. Qed.

Lemma gen_seq_return g : gen_seq g Return = g.
Proof. induction g as [|e|x g IH|l g IH]; simpl; by rewrite ?IH. Qed.

Lemma yielded_try_except g (wrap : exn → exn) :
  yielded (try_except g (λ e, Raise (wrap e))) = yielded g.
Proof. induction g as [|e|x g IH|l g IH]; simpl; by rewrite ?IH. Qed.

Lemma printed_try_except g (wrap : exn → exn) :
  printed (try_except g (λ e, Raise (wrap e))) = printed g.
Proof. induction g as [|e|x g IH|l g IH]; simpl; by rewrite ?IH. Qed.

Lemma outcome_try_except g (wrap : exn → exn) :
  outcome (try_except g (λ e, Raise (wrap e))) = wrap <$> outcome g.
Proof. induction g as [|e|x g IH|l g IH]; simpl; by rewrite ?IH. Qed.

(** A loop whose body never raises. *)
Section QuietBody.
Variable body : A → gen B.
Hypothesis body_falls_through : ∀ x, outcome (body x) = None.

Lemma yielded_for_each s :
  yielded (for_each s body) = flat_map (λ x, yielded (body x)) (items s).
Proof using body_falls_through.
  induction s as [|e|x s IH]; simpl; [done..|].
  by rewrite yielded_gen_seq, body_falls_through, IH.
Qed.

Lemma printed_for_each s :
  printed (for_each s body) = flat_map (λ x, printed (body x)) (items s).
Proof using body_falls_through.
  induction s as [|e|x s IH]; simpl; [done..|].
  by rewrite printed_gen_seq, body_falls_through, IH.
Qed.

Lemma outcome_for_each s : outcome (for_each s body) = failure s.
Proof using body_falls_through.
  induction s as [|e|x s IH]; simpl; [done..|].
  by rewrite outcome_gen_seq, body_falls_through, IH.
Qed.
End QuietBody.

Lemma for_each_ext (body1 body2 : A → gen B) s :
  (∀ x, body1 x = body2 x) → for_each s body1 = for_each s body2.
Proof.
  intros Hbody. induction s as [|e|x s IH]; simpl; [done..|].
  by rewrite Hbody, IH.
Qed.

Lemma items_produce (l : list A) (fin : stream A) :
  items (produce l fin) = l ++ items fin.
Proof. induction l as [|x l IH]; simpl; by rewrite ?IH. Qed.

Lemma failure_produce (l : list A) (fin : stream A) :
  failure (produce l fin) = failure fin.
Proof. induction l as [|x l IH]; simpl; by rewrite ?IH. Qed.

(** Every iterator is its items followed by its end. *)
Lemma stream_shape s :
  s = produce (items s) (if failure s is Some e then Fails e else Exhausted).
Proof. induction s as [|e|x s IH]; simpl; [done..|]. by rewrite <- IH. Qed.

End GeneratorFacts.

(* ===================================================================== *)
(** ** Properties of variant A's streaming *)
(* ===================================================================== *)

Lemma surfaced_spec (c : chunk) :
  (surfaced c = None ↔ c !! "output" = None)
  ∧ ∀ y, surfaced c = Some y →
      y !! "content" = c !! "output"
      ∧ y !! "output" = c !! "output"
      ∧ ∀ key, key ≠ "content" → y !! key = c !! key.
Proof.
  unfold surfaced. destruct (c !! "output") as [v|] eqn:Hout.
  - split; [split; discriminate|].
    intros y [= <-]. split_and!.
    + by rewrite lookup_insert_eq.
    + by rewrite lookup_insert_ne.
    + intros key Hkey. by rewrite lookup_insert_ne.
  - split; [done|]. discriminate.
Qed.

Lemma loop_A_body_quiet (c : chunk) :
  outcome (match c !! "output" with
           | Some output => Yield (<["content" := output]> c) Return
           | None => Return
           end) = None.
Proof. by destruct (c !! "output"). Qed.

Lemma loop_A_yields (l : list chunk) :
  flat_map (λ c : chunk,
              yielded (match c !! "output" with
                       | Some output => Yield (<["content" := output]> c) Return
                       | None => Return
                       end)) l
  = omap surfaced l.
Proof.
  induction l as [|c l IH]; [done|]. simpl. rewrite IH.
  unfold surfaced at 2. by destruct (c !! "output").
Qed.

Lemma loop_A_emit (pre : list chunk) (e : exn) :
  for_each (produce pre (Fails e))
    (λ c : chunk,
       match c !! "output" with
       | Some output => Yield (<["content" := output]> c) Return
       | None => Return
       end)
  = emit (omap surfaced pre) (Raise e).
Proof.
  induction pre as [|c pre IH]; [done|]. simpl. rewrite IH.
  unfold surfaced at 2. by destruct (c !! "output").
Qed.

Lemma try_except_emit {A} (l : list A) (fin : gen A) (h : exn → gen A) :
  try_except (emit l fin) h = emit l (try_except fin h).
Proof. induction l as [|x l IH]; simpl; by rewrite ?IH. Qed.

Lemma stream_query_A_unfold exec input first rest :
  messages input = first :: rest →
  stream_query_A exec input
  = try_except
      (for_each (exec (mkExecutorInput first rest))
         (λ c : chunk,
            match c !! "output" with
            | Some output => Yield (<["content" := output]> c) Return
            | None => Return
            end))
      (λ e, Raise (unexpected e)).
Proof. intros Hmsgs. unfold stream_query_A. by rewrite Hmsgs. Qed.

(** C3.  For a chat input with a first message, and whatever variant A's
    executor streams for it: the items that [stream_query] yields are, in
    order, the streamed chunks that carry an "output" field, each with
    its "content" field set to the value of its "output" field and its
    other fields unchanged; a chunk without "output" yields nothing.  For
    three chunks of which only the last carries "output", valued
    "hello", exactly one item is yielded and its content is "hello". *)
Theorem stream_query_A_surfaces_output
    (exec : executor_input → stream chunk) (input : InnerInputChat)
    (first : Message) (rest : list Message) :
  messages input = first :: rest →
  let s := exec (mkExecutorInput first rest) in
  let out := stream_query_A exec input in
  yielded out = omap surfaced (items s)
  ∧ (∀ y, y ∈ yielded out ↔ ∃ c, c ∈ items s ∧ surfaced c = Some y)
  ∧ (∀ c, surfaced c = None ↔ c !! "output" = None)
  ∧ (∀ c y, surfaced c = Some y →
       y !! "content" = c !! "output"
       ∧ y !! "output" = c !! "output"
       ∧ ∀ key, key ≠ "content" → y !! key = c !! key)
  ∧ (∀ c1 c2 c3,
       s = produce [c1; c2; c3] Exhausted →
       c1 !! "output" = None →
       c2 !! "output" = None →
       c3 !! "output" = Some (PStr "hello") →
       ∃ y, yielded out = [y] ∧ y !! "content" = Some (PStr "hello")).
Proof.
  intros Hmsgs s out.
  assert (Hyield : yielded out = omap surfaced (items s)).
  { unfold out. rewrite (stream_query_A_unfold exec input first rest Hmsgs).
    rewrite yielded_try_except.
    rewrite yielded_for_each by apply loop_A_body_quiet.
    apply loop_A_yields. }
  split_and!.
  - exact Hyield.
  - intros y. rewrite Hyield. apply list_elem_of_omap.
  - intros c. apply surfaced_spec.
  - intros c. apply surfaced_spec.
  - intros c1 c2 c3 Hs H1 H2 H3.
    exists (<["content" := PStr "hello"]> c3). split.
    + rewrite Hyield, Hs. simpl. unfold surfaced. by rewrite H1, H2, H3.
    + by rewrite lookup_insert_eq.
Qed.

(** A concrete run of C3: three chunks, the last one final. *)
Lemma stream_query_A_surfaces_output_witness :
  messages Samples.one_turn = [Samples.human_hi]
  ∧ yielded (stream_query_A Samples.three_chunks Samples.one_turn)
    = [<["content" := PStr "hello"]> Samples.final_chunk].
Proof.
  split; [reflexivity|].
  exact (proj1 (stream_query_A_surfaces_output Samples.three_chunks
                  Samples.one_turn Samples.human_hi [] eq_refl)).
Defined.

(** C9.  When the chat input has no message, variant A's [stream_query]
    yields nothing and raises the wrapped runtime error whose cause is
    the [IndexError] of taking the first message; the executor's stream
    is not started, so the outcome is the same for every executor. *)
Theorem stream_query_A_no_message
    (exec : executor_input → stream chunk) (input : InnerInputChat) :
  messages input = [] →
  let index_error := Exn IndexError "list index out of range" None None in
  stream_query_A exec input = Raise (unexpected index_error)
  ∧ yielded (stream_query_A exec input) = []
  ∧ outcome (stream_query_A exec input)
    = Some (Exn RuntimeError "Unexpected error. list index out of range"
              (Some index_error) (Some index_error)).
Proof.
  intros Hmsgs index_error.
  assert (Hrun : stream_query_A exec input = Raise (unexpected index_error)).
  { unfold stream_query_A. by rewrite Hmsgs. }
  rewrite Hrun. by split_and!.
Qed.

(** A concrete run of C9. *)
Lemma stream_query_A_no_message_witness :
  messages Samples.no_turn = []
  ∧ stream_query_A Samples.three_chunks Samples.no_turn
    = Raise (unexpected (Exn IndexError "list index out of range" None None)).
Proof.
  split; [reflexivity|].
  exact (proj1 (stream_query_A_no_message Samples.three_chunks
                  Samples.no_turn eq_refl)).
Defined.

(* ===================================================================== *)
(** ** Properties of variant B's streaming *)
(* ===================================================================== *)

Lemma isinstance_assistant (m : Message) :
  isinstance m [AIMessageChunk; AIMessage] = is_assistant m.
Proof. by destruct m as [[] ? ?]. Qed.

Lemma isinstance_tool_result (m : Message) :
  isinstance m [ToolMessage] = is_tool_result m.
Proof. by destruct m as [[] ? ?]. Qed.

Lemma assistant_not_tool_result (m : Message) :
  is_assistant m = true → is_tool_result m = false.
Proof. by destruct m as [[] ? ?]. Qed.

Lemma stream_query_B_unfold
    (exec : InnerInputChat → string → stream unit_) (input : InnerInputChat) :
  stream_query_B exec input
  = try_except
      (for_each (exec input "messages") (λ u, loop_B_turn u.1))
      (λ e, Raise (unexpected e)).
Proof.
  unfold stream_query_B. rewrite gen_seq_return. f_equal.
  apply for_each_ext. intros [m md]. unfold loop_B_turn, tool_line.
  cbn [fst]. by rewrite isinstance_assistant, isinstance_tool_result.
Qed.

Lemma loop_B_turn_quiet (m : Message) : outcome (loop_B_turn m) = None.
Proof. unfold loop_B_turn. by repeat case_match. Qed.

Lemma loop_B_yields (l : list unit_) :
  flat_map (λ u : unit_, yielded (loop_B_turn u.1)) l
  = List.filter is_assistant l.*1.
Proof.
  induction l as [|[m md] l IH]; [done|]. simpl. rewrite IH.
  unfold loop_B_turn. by repeat case_match.
Qed.

Lemma loop_B_prints (l : list unit_) :
  flat_map (λ u : unit_, printed (loop_B_turn u.1)) l
  = tool_line <$> List.filter is_tool_result l.*1.
Proof.
  induction l as [|[m md] l IH]; [done|]. simpl. rewrite IH.
  unfold loop_B_turn.
  destruct (is_assistant m) eqn:Ha.
  - by rewrite (assistant_not_tool_result m Ha).
  - by destruct (is_tool_result m).
Qed.

Lemma stream_query_B_yielded exec input :
  yielded (stream_query_B exec input)
  = List.filter is_assistant (items (exec input "messages")).*1.
Proof.
  rewrite stream_query_B_unfold, yielded_try_except.
  rewrite (yielded_for_each (λ u : unit_, loop_B_turn u.1))
    by (intros u; apply loop_B_turn_quiet).
  apply loop_B_yields.
Qed.

Lemma stream_query_B_printed exec input :
  printed (stream_query_B exec input)
  = tool_line <$> List.filter is_tool_result (items (exec input "messages")).*1.
Proof.
  rewrite stream_query_B_unfold, printed_try_except.
  rewrite (printed_for_each (λ u : unit_, loop_B_turn u.1))
    by (intros u; apply loop_B_turn_quiet).
  apply loop_B_prints.
Qed.

Lemma stream_query_B_outcome exec input :
  outcome (stream_query_B exec input)
  = unexpected <$> failure (exec input "messages").
Proof.
  rewrite stream_query_B_unfold, outcome_try_except.
  by rewrite (outcome_for_each (λ u : unit_, loop_B_turn u.1))
    by (intros u; apply loop_B_turn_quiet).
Qed.

(** C4.  Whatever variant B's executor streams: the items that
    [stream_query] yields are, in order and unchanged, the leading
    messages of the units whose leading message is an assistant delta or
    a complete assistant message; a unit whose leading message is a tool
    result yields nothing and produces one printed line.  For an
    assistant delta followed by a tool result, exactly one item is
    yielded, the delta, one line is printed, and the generator returns. *)
Theorem stream_query_B_forwards_assistant
    (exec : InnerInputChat → string → stream unit_) (input : InnerInputChat) :
  let s := exec input "messages" in
  let out := stream_query_B exec input in
  yielded out = List.filter is_assistant (items s).*1
  ∧ printed out = tool_line <$> List.filter is_tool_result (items s).*1
  ∧ (∀ m, is_tool_result m = true → m ∉ yielded out)
  ∧ (∀ delta result_ md1 md2,
       s = produce [(delta, md1); (result_, md2)] Exhausted →
       is_assistant delta = true →
       is_tool_result result_ = true →
       yielded out = [delta]
       ∧ printed out = ["ToolMessage received: " +:+ content result_]
       ∧ outcome out = None).
Proof.
  intros s out. unfold out, s.
  rewrite stream_query_B_yielded, stream_query_B_printed.
  split_and!; try done.
  - intros m Htool Hin.
    apply list_elem_of_In, List.filter_In in Hin as [_ Ha].
    apply assistant_not_tool_result in Ha. congruence.
  - intros delta result_ md1 md2 Hs Ha Ht.
    rewrite stream_query_B_outcome, Hs. simpl. rewrite Ha, Ht.
    rewrite (assistant_not_tool_result delta Ha).
    destruct (is_assistant result_) eqn:Ha'.
    + apply assistant_not_tool_result in Ha'. congruence.
    + done.
Qed.

(** A concrete run of C4. *)
Lemma stream_query_B_forwards_assistant_witness :
  yielded (stream_query_B Samples.delta_then_tool Samples.one_turn)
  = [Samples.ai_delta]
  ∧ printed (stream_query_B Samples.delta_then_tool Samples.one_turn)
    = ["ToolMessage received: 42"].
Proof.
  destruct (stream_query_B_forwards_assistant Samples.delta_then_tool
              Samples.one_turn) as (_ & _ & _ & Hrun).
  destruct (Hrun Samples.ai_delta Samples.tool_result Samples.no_metadata
              Samples.no_metadata eq_refl eq_refl eq_refl) as (Hy & Hp & _).
  split; [exact Hy | exact Hp].
Defined.

Lemma for_each_skip_ignored (s : stream unit_) :
  for_each (stream_filter (λ u, negb (is_ignored u)) s)
    (λ u, loop_B_turn u.1)
  = for_each s (λ u, loop_B_turn u.1).
Proof.
  induction s as [|e|[m md] s IH]; [done..|].
  cbn [stream_filter for_each fst].
  destruct (is_ignored (m, md)) eqn:Hig; cbn [negb].
  - rewrite IH. unfold is_ignored in Hig. cbn [fst] in Hig.
    apply andb_true_iff in Hig as [Ha Ht]. apply negb_true_iff in Ha, Ht.
    assert (loop_B_turn m = Return) as ->; [|done].
    unfold loop_B_turn. by rewrite Ha, Ht.
  - cbn [for_each fst]. by rewrite IH.
Qed.

(** C10.  In variant B a unit whose leading message is neither an
    assistant message or delta nor a tool result is skipped silently:
    removing all such units from the executor's stream changes nothing
    in what [stream_query] yields, prints or raises; a stream of such
    units alone yields nothing and prints nothing; and every item that
    is yielded is an assistant message or delta. *)
Theorem stream_query_B_skips_other
    (exec : InnerInputChat → string → stream unit_) (input : InnerInputChat) :
  stream_query_B exec input
  = stream_query_B
      (λ i mode, stream_filter (λ u, negb (is_ignored u)) (exec i mode)) input
  ∧ (∀ m, m ∈ yielded (stream_query_B exec input) →
       msg_class m = AIMessage ∨ msg_class m = AIMessageChunk)
  ∧ (Forall (λ u, is_ignored u = true) (items (exec input "messages")) →
     yielded (stream_query_B exec input) = []
     ∧ printed (stream_query_B exec input) = []).
Proof.
  split_and!.
  - rewrite !stream_query_B_unfold. by rewrite for_each_skip_ignored.
  - intros m. rewrite stream_query_B_yielded. intros Hin.
    apply list_elem_of_In, List.filter_In in Hin as [_ Ha].
    unfold is_assistant in Ha. by apply bool_decide_eq_true_1 in Ha.
  - rewrite stream_query_B_yielded, stream_query_B_printed.
    induction 1 as [|[m md] l Hu _ IH]; [done|].
    destruct IH as [IHy IHp]. unfold is_ignored in Hu. simpl in *.
    apply andb_true_iff in Hu as [Ha Ht].
    apply negb_true_iff in Ha, Ht. rewrite Ha, Ht. simpl.
    split; [exact IHy | exact IHp].
Qed.

(** A concrete run of C10: a human message between two units. *)
Lemma stream_query_B_skips_other_witness :
  stream_query_B
    (λ _ _, produce [(Samples.ai_delta, Samples.no_metadata);
                     (Samples.human_hi, Samples.no_metadata);
                     (Samples.tool_result, Samples.no_metadata)] Exhausted)
    Samples.one_turn
  = Yield Samples.ai_delta (Print "ToolMessage received: 42" Return)
  ∧ yielded (stream_query_B
               (λ _ _, produce [(Samples.human_hi, Samples.no_metadata)]
                         Exhausted)
               Samples.one_turn) = [].
Proof.
  split; [reflexivity|].
  apply (proj2 (proj2 (stream_query_B_skips_other
    (λ _ _, produce [(Samples.human_hi, Samples.no_metadata)] Exhausted)
    Samples.one_turn))).
  repeat constructor.
Defined.

(* ===================================================================== *)
(** ** The streaming boundary *)
(* ===================================================================== *)

Lemma loop_B_failure (pre : list unit_) (e : exn) (h : exn → gen Message) :
  try_except (for_each (produce pre (Fails e)) (λ u, loop_B_turn u.1)) h
  = foldr (λ u k, gen_seq (loop_B_turn u.1) k) (h e) pre.
Proof.
  induction pre as [|[m md] pre IH]; [done|].
  cbn [produce for_each foldr fst]. rewrite <- IH.
  unfold loop_B_turn. by repeat case_match.
Qed.

(** C8.  In both variants, when the executor's stream raises [e] after
    the units [pre], [stream_query] handles [pre] as usual and then
    raises a [RuntimeError] whose message is "Unexpected error. "
    followed by [str(e)] and whose cause is [e]; the raise is the
    generator's last effect, so nothing is yielded after it. *)
Theorem stream_query_wraps_failure (e : exn) :
  (∀ (exec : executor_input → stream chunk) input first rest pre,
     messages input = first :: rest →
     exec (mkExecutorInput first rest) = produce pre (Fails e) →
     stream_query_A exec input
     = emit (omap surfaced pre) (Raise (unexpected e)))
  ∧ (∀ (exec : InnerInputChat → string → stream unit_) input pre,
       exec input "messages" = produce pre (Fails e) →
       stream_query_B exec input
       = foldr (λ u k, gen_seq (loop_B_turn u.1) k)
           (Raise (unexpected e)) pre
       ∧ yielded (stream_query_B exec input)
         = List.filter is_assistant pre.*1
       ∧ outcome (stream_query_B exec input) = Some (unexpected e))
  ∧ unexpected e
    = Exn RuntimeError ("Unexpected error. " +:+ exn_str e) (Some e) (Some e)
  ∧ exn_cause (unexpected e) = Some e.
Proof.
  split_and!; try done.
  - intros exec input first rest pre Hmsgs Hs.
    rewrite (stream_query_A_unfold exec input first rest Hmsgs), Hs.
    by rewrite loop_A_emit, try_except_emit.
  - intros exec input pre Hs. split_and!.
    + rewrite stream_query_B_unfold, Hs.
      exact (loop_B_failure pre e (λ e', Raise (unexpected e'))).
    + by rewrite stream_query_B_yielded, Hs, items_produce, app_nil_r.
    + by rewrite stream_query_B_outcome, Hs, failure_produce.
Qed.

(** A concrete run of C8: each executor times out after one unit. *)
Lemma stream_query_wraps_failure_witness :
  messages Samples.one_turn = [Samples.human_hi]
  ∧ stream_query_A Samples.chunk_then_timeout Samples.one_turn
    = Yield (<["content" := PStr "hello"]> Samples.final_chunk)
        (Raise (unexpected Samples.timeout_error))
  ∧ stream_query_B Samples.delta_then_timeout Samples.one_turn
    = Yield Samples.ai_delta (Raise (unexpected Samples.timeout_error)).
Proof.
  destruct (stream_query_wraps_failure Samples.timeout_error)
    as (HA & HB & _).
  split; [reflexivity|]. split.
  - exact (HA Samples.chunk_then_timeout Samples.one_turn Samples.human_hi
             [] [Samples.final_chunk] eq_refl eq_refl).
  - exact (proj1 (HB Samples.delta_then_timeout Samples.one_turn
                    [(Samples.ai_delta, Samples.no_metadata)] eq_refl)).
Defined.

(* ===================================================================== *)
(** ** Further properties of construction and deployment *)
(* ===================================================================== *)

Section ConstructionCases.
Context {float model executor : Type}.
Variable registry_get_tools : string -> string -> result (list tool).
Variable ChatVertexAI : AgentConfiguration float -> result model.
Variable set_up :
  AgentConfiguration float -> list tool -> model -> result executor.
Implicit Types (cfg : AgentConfiguration float).

Lemma get_model_obj_cases cfg :
  match ChatVertexAI cfg with
  | inr m =>
      get_model_obj ChatVertexAI cfg
      = ([ChatVertexAICall (model_name cfg)], returned m)
  | inl e =>
      get_model_obj ChatVertexAI cfg
      = ([ChatVertexAICall (model_name cfg)],
         raised (if bool_decide (exn_cls e = NotFound)
                 then raise_during NotFound
                        ("Resource not found. " +:+ exn_str e) e
                 else raise_from RuntimeError
                        ("Error encountered initalizing model resource. "
                           +:+ exn_str e) e))
  end.
Proof.
  unfold get_model_obj, tr_try, tr_call.
  destruct (ChatVertexAI cfg) as [e|m]; [|done].
  by destruct (bool_decide (exn_cls e = NotFound)).
Qed.

(** Construction, step by step. *)
Lemma init_cases cfg :
  let r := init registry_get_tools ChatVertexAI set_up cfg in
  match registry_get_tools (industry_type cfg) (orchestration_framework cfg)
  with
  | inl e => r = (take 1 (construction_calls cfg), raised e)
  | inr ts =>
      match get_model_obj ChatVertexAI cfg with
      | (_, inl e) => r = (take 2 (construction_calls cfg), raised e)
      | (_, inr m) =>
          match set_up cfg ts m with
          | inl e => r = (construction_calls cfg, raised e)
          | inr ex =>
              r = (construction_calls cfg, returned (mkManager cfg ts m ex))
          end
      end
  end.
Proof.
  intros r. unfold r, init, get_tools_method, tr_call, tr_bind.
  destruct (registry_get_tools _ _) as [e|ts]; [done|].
  pose proof (get_model_obj_cases cfg) as Hm.
  destruct (ChatVertexAI cfg) as [e|m]; rewrite Hm; [done|].
  unfold returned. by destruct (set_up cfg ts m).
Qed.

End ConstructionCases.

(** X1.  Construction returns a manager exactly when the tool registry,
    the model constructor and [set_up] all return, and the manager then
    holds the configuration it was given, the registry's tools, the
    model client and the executor that [set_up] built from them: there
    is no partly built manager. *)
Theorem init_returns_iff {float model executor : Type}
    (registry_get_tools : string -> string -> result (list tool))
    (ChatVertexAI : AgentConfiguration float -> result model)
    (set_up : AgentConfiguration float -> list tool -> model
              -> result executor)
    (cfg : AgentConfiguration float)
    (mgr : BaseAgentManager float model executor) :
  (init registry_get_tools ChatVertexAI set_up cfg).2 = returned mgr
  ↔ ∃ ts m ex,
      registry_get_tools (industry_type cfg) (orchestration_framework cfg)
      = returned ts
      ∧ ChatVertexAI cfg = returned m
      ∧ set_up cfg ts m = returned ex
      ∧ mgr = mkManager cfg ts m ex.
Proof.
  pose proof (init_cases registry_get_tools ChatVertexAI set_up cfg) as Hi.
  pose proof (get_model_obj_cases ChatVertexAI cfg) as Hm.
  cbv zeta in Hi. unfold returned, raised in *.
  destruct (registry_get_tools _ _) as [e|ts].
  { rewrite Hi. simpl. split; [discriminate|]. by intros (? & ? & ? & ? & _). }
  destruct (ChatVertexAI cfg) as [e|m]; rewrite Hm in Hi.
  { rewrite Hi. simpl. split; [discriminate|].
    by intros (? & ? & ? & _ & ? & _). }
  destruct (set_up cfg ts m) as [e|ex] eqn:Hs; rewrite Hi; simpl.
  - split; [discriminate|].
    intros (ts' & m' & ex' & [= <-] & [= <-] & Hs' & _). congruence.
  - split.
    + intros [= <-]. by exists ts, m, ex.
    + intros (ts' & m' & ex' & [= <-] & [= <-] & Hs' & ->). congruence.
Qed.

(** A concrete run of X1: three collaborators that answer. *)
Lemma init_returns_iff_witness :
  (init Samples.sample_registry Samples.working_client
     Samples.sample_set_up Samples.sample_config).2
  = returned (mkManager Samples.sample_config [fallback; should_continue]
                tt tt).
Proof.
  apply (proj2 (init_returns_iff Samples.sample_registry
                  Samples.working_client Samples.sample_set_up
                  Samples.sample_config _)).
  by exists [fallback; should_continue], tt, tt.
Defined.

(** X2.  Whatever the collaborators do, the calls that construction
    makes are an initial part of: tool registry, model constructor,
    [set_up].  The tool registry is always called, no step is called
    twice or out of turn, and the calls are all three exactly when
    [set_up] was reached. *)
Theorem init_calls_in_order {float model executor : Type}
    (registry_get_tools : string -> string -> result (list tool))
    (ChatVertexAI : AgentConfiguration float -> result model)
    (set_up : AgentConfiguration float -> list tool -> model
              -> result executor)
    (cfg : AgentConfiguration float) :
  let calls := (init registry_get_tools ChatVertexAI set_up cfg).1 in
  calls `prefix_of` construction_calls cfg
  ∧ 1 ≤ length calls
  ∧ (SetUpCall ∈ calls ↔
       ∃ ts m,
         registry_get_tools (industry_type cfg) (orchestration_framework cfg)
         = returned ts
         ∧ ChatVertexAI cfg = returned m).
Proof.
  pose proof (init_cases registry_get_tools ChatVertexAI set_up cfg) as Hi.
  pose proof (get_model_obj_cases ChatVertexAI cfg) as Hm.
  cbv zeta in *. unfold returned, raised in *.
  assert (Hno : ∀ n, n ≤ 2 → SetUpCall ∉ take n (construction_calls cfg)).
  { intros [|[|[|n]]] Hn; [| | |lia];
      simpl; intros Hin;
      repeat (apply elem_of_cons in Hin as [Hin|Hin]; [discriminate|]);
      by apply elem_of_nil in Hin. }
  destruct (registry_get_tools _ _) as [e|ts].
  { rewrite Hi. simpl. split_and!; [by eexists | lia |].
    split; [|by intros (? & ? & ? & _)].
    intros Hin. by apply (Hno 1) in Hin; [|lia]. }
  destruct (ChatVertexAI cfg) as [e|m]; rewrite Hm in Hi.
  { rewrite Hi. simpl. split_and!; [by eexists | lia |].
    split; [|by intros (? & ? & _ & ?)].
    intros Hin. by apply (Hno 2) in Hin; [|lia]. }
  assert (Hall : (init registry_get_tools ChatVertexAI set_up cfg).1
                 = construction_calls cfg).
  { by destruct (set_up cfg ts m); rewrite Hi. }
  rewrite Hall. split_and!; [done | simpl; lia |].
  split; [by exists ts, m|]. intros _. unfold construction_calls.
  do 2 apply list_elem_of_further. apply list_elem_of_here.
Qed.

(** X3.  When [get_model_obj] raises, the constructor raised some [e],
    which is the context of what is raised; a model-not-found [e] comes
    out as a [NotFound] without explicit cause, any other [e] as a
    [RuntimeError] whose cause is [e].  No other class leaves
    [get_model_obj]. *)
Theorem get_model_obj_raises_only {float model : Type}
    (ChatVertexAI : AgentConfiguration float -> result model)
    (cfg : AgentConfiguration float) (e' : exn) :
  (get_model_obj ChatVertexAI cfg).2 = raised e' →
  ∃ e, ChatVertexAI cfg = raised e
       ∧ exn_context e' = Some e
       ∧ ((exn_cls e = NotFound
           ∧ e' = Exn NotFound ("Resource not found. " +:+ exn_str e)
                    None (Some e))
          ∨ (exn_cls e ≠ NotFound
             ∧ e' = Exn RuntimeError
                      ("Error encountered initalizing model resource. "
                         +:+ exn_str e) (Some e) (Some e))).
Proof.
  pose proof (get_model_obj_cases ChatVertexAI cfg) as Hm.
  destruct (ChatVertexAI cfg) as [e|m]; rewrite Hm; simpl; [|discriminate].
  intros [= <-]. exists e. split; [done|].
  case_bool_decide as Hcls; (split; [done|]); [left | right]; done.
Qed.

(** A concrete run of X3: the platform throttles the constructor. *)
Lemma get_model_obj_raises_only_witness :
  ∃ e' e,
    (get_model_obj Samples.throttled_client Samples.sample_config).2
    = raised e'
    ∧ Samples.throttled_client Samples.sample_config = raised e
    ∧ exn_context e' = Some e.
Proof.
  eexists.
  destruct (get_model_obj_raises_only Samples.throttled_client
              Samples.sample_config _ eq_refl) as (e & He & Hctx & _).
  exists e. split; [reflexivity|]. split; [exact He | exact Hctx].
Defined.

(** X4.  Only the model constructor's errors are translated: an error
    of the tool registry leaves construction as it is, after that one
    call, and an error of [set_up] leaves construction as it is, after
    all three calls. *)
Theorem init_passes_errors_through {float model executor : Type}
    (registry_get_tools : string -> string -> result (list tool))
    (ChatVertexAI : AgentConfiguration float -> result model)
    (set_up : AgentConfiguration float -> list tool -> model
              -> result executor)
    (cfg : AgentConfiguration float) (e : exn) :
  (registry_get_tools (industry_type cfg) (orchestration_framework cfg)
   = raised e →
   init registry_get_tools ChatVertexAI set_up cfg
   = ([GetToolsCall (industry_type cfg) (orchestration_framework cfg)],
      raised e))
  ∧ (∀ ts m,
       registry_get_tools (industry_type cfg) (orchestration_framework cfg)
       = returned ts →
       ChatVertexAI cfg = returned m →
       set_up cfg ts m = raised e →
       init registry_get_tools ChatVertexAI set_up cfg
       = (construction_calls cfg, raised e)).
Proof.
  pose proof (init_cases registry_get_tools ChatVertexAI set_up cfg) as Hi.
  pose proof (get_model_obj_cases ChatVertexAI cfg) as Hm.
  cbv zeta in *. unfold returned, raised in *. split.
  - intros Hr. by rewrite Hr in Hi.
  - intros ts m Hr Hc Hs. rewrite Hr in Hi. rewrite Hc in Hm.
    rewrite Hm in Hi. by rewrite Hs in Hi.
Qed.

(** A concrete run of X4. *)
Lemma init_passes_errors_through_witness :
  init Samples.failing_registry Samples.working_client
    Samples.sample_set_up Samples.sample_config
  = ([GetToolsCall "finance" "langchain_prebuilt_agent"],
     raised Samples.quota_error)
  ∧ init Samples.sample_registry Samples.working_client
      Samples.failing_set_up Samples.sample_config
    = (construction_calls Samples.sample_config, raised Samples.quota_error).
Proof.
  split.
  - exact (proj1 (init_passes_errors_through Samples.failing_registry
                    Samples.working_client Samples.sample_set_up
                    Samples.sample_config Samples.quota_error) eq_refl).
  - exact (proj2 (init_passes_errors_through Samples.sample_registry
                    Samples.working_client Samples.failing_set_up
                    Samples.sample_config Samples.quota_error)
             [fallback; should_continue] tt eq_refl eq_refl eq_refl).
Defined.

Section DeploymentCases.
Context {manager remote_engine : Type}.
Variables USER_AGENT AGENT_DESCRIPTION : string.
Variable get_requirements_from_toml : result (list string).
Variable ReasoningEngine_create :
  manager -> list string -> string -> string -> list string
  -> result remote_engine.

Lemma deploy_cases (agent_manager : manager) :
  let r := deploy_agent_to_reasoning_engine USER_AGENT AGENT_DESCRIPTION
             get_requirements_from_toml ReasoningEngine_create
             agent_manager in
  let failed e :=
    Exn RuntimeError ("Error deploying Reasoning Engine Agent. " +:+ exn_str e)
      (Some e) (Some e) in
  match get_requirements_from_toml with
  | inl e => r = ([RequirementsCall], raised (failed e))
  | inr rq =>
      let created :=
        CreateCall rq USER_AGENT AGENT_DESCRIPTION
          ["./app"; "./deployment/env"] in
      match ReasoningEngine_create agent_manager rq USER_AGENT
              AGENT_DESCRIPTION ["./app"; "./deployment/env"] with
      | inl e => r = ([RequirementsCall; created], raised (failed e))
      | inr handle => r = ([RequirementsCall; created], returned handle)
      end
  end.
Proof.
  intros r failed. unfold r, deploy_agent_to_reasoning_engine.
  unfold tr_try, tr_bind, tr_call, tr_raise, tr_ret.
  destruct get_requirements_from_toml as [e|rq]; [done|].
  by destruct (ReasoningEngine_create _ _ _ _ _).
Qed.

End DeploymentCases.

(** X5.  Deployment returns the remote handle exactly when reading the
    requirements and the remote [create] both return.  Whatever it
    raises is a [RuntimeError] whose message is "Error deploying
    Reasoning Engine Agent. " followed by the text of the original
    error and whose cause is that error, be it the requirements reader's
    or [create]'s; and when the requirements cannot be read, [create]
    is not called. *)
Theorem deploy_wraps_every_failure {manager remote_engine : Type}
    (USER_AGENT AGENT_DESCRIPTION : string)
    (get_requirements_from_toml : result (list string))
    (ReasoningEngine_create :
       manager -> list string -> string -> string -> list string
       -> result remote_engine)
    (agent_manager : manager) :
  let r := deploy_agent_to_reasoning_engine USER_AGENT AGENT_DESCRIPTION
             get_requirements_from_toml ReasoningEngine_create
             agent_manager in
  (∀ handle,
     r.2 = returned handle ↔
     ∃ rq, get_requirements_from_toml = returned rq
           ∧ ReasoningEngine_create agent_manager rq USER_AGENT
               AGENT_DESCRIPTION ["./app"; "./deployment/env"]
             = returned handle)
  ∧ (∀ e', r.2 = raised e' →
       exn_cls e' = RuntimeError
       ∧ ∃ e, exn_cause e' = Some e
              ∧ exn_msg e'
                = "Error deploying Reasoning Engine Agent. " +:+ exn_str e
              ∧ (get_requirements_from_toml = raised e
                 ∨ ∃ rq, get_requirements_from_toml = returned rq
                         ∧ ReasoningEngine_create agent_manager rq USER_AGENT
                             AGENT_DESCRIPTION ["./app"; "./deployment/env"]
                           = raised e))
  ∧ (∀ e, get_requirements_from_toml = raised e → r.1 = [RequirementsCall]).
Proof.
  pose proof (deploy_cases USER_AGENT AGENT_DESCRIPTION
                get_requirements_from_toml ReasoningEngine_create
                agent_manager) as Hd.
  cbv zeta in *. unfold returned, raised in *.
  destruct get_requirements_from_toml as [e|rq].
  { rewrite Hd. simpl. split_and!.
    - intros handle. split; [discriminate | by intros (? & ? & _)].
    - intros e' [= <-]. split; [done|]. exists e. split_and!; auto.
    - done. }
  destruct (ReasoningEngine_create _ _ _ _ _) as [e|handle] eqn:Hc;
    rewrite Hd; simpl; split_and!.
  - intros handle. split; [discriminate|].
    intros (rq' & [= <-] & Hc'). congruence.
  - intros e' [= <-]. split; [done|]. exists e. split_and!; eauto.
  - discriminate.
  - intros handle'. split.
    + intros [= <-]. eauto.
    + intros (rq' & [= <-] & Hc'). congruence.
  - discriminate.
  - discriminate.
Qed.

(** A concrete run of X5: the requirements file is missing. *)
Lemma deploy_wraps_every_failure_witness :
  (deploy_agent_to_reasoning_engine "agent" "demo"
     Samples.unreadable_requirements Samples.sample_create tt).1
  = [RequirementsCall].
Proof.
  exact (proj2 (proj2 (deploy_wraps_every_failure "agent" "demo"
    Samples.unreadable_requirements Samples.sample_create tt)) _ eq_refl).
Defined.

(* ===================================================================== *)
(** ** Further properties of the retriever adapter *)
(* ===================================================================== *)

(** X6.  The retriever and the re-ranker are stubbed together or not at
    all: each factory returns its stub exactly when [INTEGRATION_TEST]
    is the string "TRUE"; for any other value, or none, they return the
    managed retriever for the given project, data store and location
    and the managed ranker with the five best kept. *)
Theorem factories_stub_together (env : environ)
    (project_id data_store_id agent_builder_location : string) :
  let r := get_retriever env project_id data_store_id agent_builder_location in
  let c := get_compressor env project_id in
  (r = MockRetriever ↔ getenv env "INTEGRATION_TEST" = Some "TRUE")
  ∧ (c = MockCompressor ↔ getenv env "INTEGRATION_TEST" = Some "TRUE")
  ∧ (r = MockRetriever ↔ c = MockCompressor)
  ∧ (getenv env "INTEGRATION_TEST" ≠ Some "TRUE" →
     r = VertexAISearchRetriever project_id data_store_id
           agent_builder_location 0
     ∧ c = VertexAIRank project_id "global" "default_ranking_config" "id" 5).
Proof.
  unfold get_retriever, get_compressor, integration_test.
  case_bool_decide as Hflag; cbv zeta; split_and!; try done;
    split; (discriminate || done).
Qed.

(** A concrete run of X6: the flag in lower case is not the flag. *)
Lemma factories_stub_together_witness :
  getenv {[ "INTEGRATION_TEST" := "true" ]} "INTEGRATION_TEST" ≠ Some "TRUE"
  ∧ get_compressor {[ "INTEGRATION_TEST" := "true" ]} "proj"
    = VertexAIRank "proj" "global" "default_ranking_config" "id" 5.
Proof.
  assert (Hflag : getenv {[ "INTEGRATION_TEST" := "true" ]} "INTEGRATION_TEST"
                  ≠ Some "TRUE") by (vm_compute; discriminate).
  split; [exact Hflag|].
  exact (proj2 (proj2 (proj2 (proj2
    (factories_stub_together {[ "INTEGRATION_TEST" := "true" ]}
       "proj" "store-1" "us"))) Hflag)).
Defined.

Lemma retrieve_info_cases (format_docs : list Document → string)
    (b : backend) (env : environ) (project_id query : string) :
  let r := retrieve_info format_docs b env project_id query in
  let ds := DATA_STORE_ID env in
  if integration_test env then r = ([], returned (format_docs [], []))
  else
    match search b ds query with
    | inl e => r = ([SearchRequest ds query], raised e)
    | inr found =>
        match rank b found query 5 with
        | inl e =>
            r = ([SearchRequest ds query; RankRequest found query], raised e)
        | inr ranked =>
            r = ([SearchRequest ds query; RankRequest found query],
                 returned (format_docs ranked, ranked))
        end
    end.
Proof.
  intros r ds. unfold r, ds, retrieve_info, retriever_obj, compressor_obj,
    get_retriever, get_compressor.
  destruct (integration_test env); [done|].
  unfold invoke, compress_documents, tr_call, tr_bind, tr_ret.
  destruct (search b _ query) as [e|found]; [done|].
  by destruct (rank b found query 5).
Qed.

(** X7.  Whenever [retrieve_info] returns, the text it returns is the
    rendering of the very documents it returns beside it; in test mode
    these are none, otherwise they are what the ranker made, with the
    five best kept, of what the search found for the same query in the
    configured data store. *)
Theorem retrieve_info_text_matches_documents
    (format_docs : list Document → string) (b : backend) (env : environ)
    (project_id query text : string) (docs : list Document) :
  (retrieve_info format_docs b env project_id query).2
  = returned (text, docs) →
  text = format_docs docs
  ∧ (if integration_test env then docs = []
     else ∃ found,
            search b (DATA_STORE_ID env) query = returned found
            ∧ rank b found query 5 = returned docs).
Proof.
  pose proof (retrieve_info_cases format_docs b env project_id query) as Hr.
  cbv zeta in Hr. unfold returned, raised in *.
  destruct (integration_test env).
  { rewrite Hr. simpl. by intros [= <- <-]. }
  destruct (search b _ query) as [e|found]; [by rewrite Hr|].
  destruct (rank b found query 5) as [e|ranked] eqn:Hrank;
    rewrite Hr; simpl; [discriminate|].
  intros [= <- <-]. split; [done|]. by exists found.
Qed.

(** A concrete run of X7 against a backend that answers. *)
Lemma retrieve_info_text_matches_documents_witness :
  (retrieve_info Samples.plain_template Samples.sample_backend
     Samples.keyed_env "proj" "best ETF?").2
  = returned ("ETF overview" +:+ Samples.newline, [Samples.one_doc])
  ∧ "ETF overview" +:+ Samples.newline
    = Samples.plain_template [Samples.one_doc].
Proof.
  assert (Hrun : (retrieve_info Samples.plain_template Samples.sample_backend
                    Samples.keyed_env "proj" "best ETF?").2
                 = returned ("ETF overview" +:+ Samples.newline,
                             [Samples.one_doc])) by reflexivity.
  split; [exact Hrun|].
  exact (proj1 (retrieve_info_text_matches_documents _ _ _ _ _ _ _ Hrun)).
Defined.

(** X9.  [retrieve_info] catches nothing and adds nothing: it never
    raises in test mode, and outside test mode whatever it raises is,
    unchanged, the error of the search or, when the search returned, the
    error of the ranker. *)
Theorem retrieve_info_raises_backend_errors
    (format_docs : list Document → string) (b : backend) (env : environ)
    (project_id query : string) (e : exn) :
  (retrieve_info format_docs b env project_id query).2 = raised e ↔
  integration_test env = false
  ∧ (search b (DATA_STORE_ID env) query = raised e
     ∨ ∃ found,
         search b (DATA_STORE_ID env) query = returned found
         ∧ rank b found query 5 = raised e).
Proof.
  pose proof (retrieve_info_cases format_docs b env project_id query) as Hr.
  cbv zeta in Hr. unfold returned, raised in *.
  destruct (integration_test env).
  { rewrite Hr. simpl. split; [discriminate | by intros [? _]]. }
  destruct (search b _ query) as [e0|found].
  { rewrite Hr. simpl. split.
    - intros [= <-]. auto.
    - intros [_ [[= <-] | (? & ? & _)]]; done. }
  destruct (rank b found query 5) as [e0|ranked] eqn:Hrank; rewrite Hr; simpl.
  - split.
    + intros [= <-]. split; [done|]. right. by exists found.
    + intros [_ [? | (found' & [= <-] & Hrank')]]; [done | congruence].
  - split; [discriminate|].
    intros [_ [? | (found' & [= <-] & Hrank')]]; [done | congruence].
Qed.

(** A concrete run of X9: the ranker is unreachable. *)
Lemma retrieve_info_raises_backend_errors_witness :
  (retrieve_info Samples.plain_template Samples.rank_down
     Samples.keyed_env "proj" "best ETF?").2
  = raised Samples.timeout_error.
Proof.
  apply (proj2 (retrieve_info_raises_backend_errors Samples.plain_template
                  Samples.rank_down Samples.keyed_env "proj" "best ETF?"
                  Samples.timeout_error)).
  split; [reflexivity|]. right. exists [Samples.one_doc].
  split; reflexivity.
Defined.

(* ===================================================================== *)
(** ** Further properties of the tool registry *)
(* ===================================================================== *)

Lemma getenv_default_set (env : environ) (name : string) :
  getenv_default env name "unset" ≠ "unset"
  ↔ ∃ v, env !! name = Some v ∧ v ≠ "unset".
Proof.
  unfold getenv_default. destruct (env !! name) as [v|]; simpl.
  - split; [by exists v | by intros (? & [= <-] & ?)].
  - split; [done | by intros (? & ? & _)].
Qed.

Lemma retrieval_block_set (env : environ) :
  (DATA_STORE_ID env ≠ "unset" ∧ retrieval_block env = [retrieve_info_tool])
  ∨ (DATA_STORE_ID env = "unset" ∧ retrieval_block env = []).
Proof.
  unfold retrieval_block. case_bool_decide as H; [by left|right].
  split; [|done]. by destruct (decide (DATA_STORE_ID env = "unset")).
Qed.

Lemma industry_block_sublist (FIN HC : string) (sel : option string) :
  industry_block FIN HC sel
    `sublist_of` [YahooFinanceNewsTool; medical_publications_tool].
Proof.
  destruct (industry_block_cases FIN HC sel) as [-> | [-> | ->]].
  - apply sublist_nil_l.
  - apply sublist_skip, sublist_nil_l.
  - by apply sublist_cons.
Qed.

Lemma general_purpose_sublist (env : environ) :
  general_purpose_tools env
    `sublist_of` web_tools ++ [retrieve_info_tool] ++ [fallback; should_continue].
Proof.
  unfold general_purpose_tools. apply sublist_app; [|apply sublist_app].
  - destruct (web_block_cases env) as [[_ ->] | [_ ->]];
      [apply sublist_nil_l | done].
  - destruct (retrieval_block_cases env) as [-> | ->];
      [apply sublist_nil_l | done].
  - done.
Qed.

Lemma get_tools_sublist (FIN HC : string) (env : environ)
    (sel : option string) :
  get_tools FIN HC env sel `sublist_of` catalogue.
Proof.
  rewrite get_tools_blocks.
  change catalogue with
    ([YahooFinanceNewsTool; medical_publications_tool]
       ++ (web_tools ++ [retrieve_info_tool] ++ [fallback; should_continue])).
  apply sublist_app;
    [apply industry_block_sublist | apply general_purpose_sublist].
Qed.

Lemma elem_of_industry_block (FIN HC : string) (sel : option string)
    (t : tool) :
  t ∈ industry_block FIN HC sel → is_industry_tool t = true.
Proof.
  destruct (industry_block_cases FIN HC sel) as [-> | [-> | ->]];
    intros Hin.
  - by apply elem_of_nil in Hin.
  - by apply list_elem_of_singleton in Hin as ->.
  - by apply list_elem_of_singleton in Hin as ->.
Qed.

Lemma elem_of_web_block (env : environ) (t : tool) :
  t ∈ web_block env ↔ SERP_API_KEY env ≠ "unset" ∧ t ∈ web_tools.
Proof.
  destruct (web_block_cases env) as [[Hs ->] | [Hs ->]].
  - split; [by intros ?%elem_of_nil | by intros [? _]].
  - split; [done | by intros [_ ?]].
Qed.

Lemma elem_of_retrieval_block (env : environ) (t : tool) :
  t ∈ retrieval_block env
  ↔ DATA_STORE_ID env ≠ "unset" ∧ t = retrieve_info_tool.
Proof.
  destruct (retrieval_block_set env) as [[Hd ->] | [Hd ->]].
  - rewrite list_elem_of_singleton. split; [done | by intros [_ ?]].
  - split; [by intros ?%elem_of_nil | by intros [? _]].
Qed.

Lemma elem_of_get_tools (FIN HC : string) (env : environ)
    (sel : option string) (t : tool) :
  t ∈ get_tools FIN HC env sel
  ↔ t ∈ industry_block FIN HC sel
    ∨ (SERP_API_KEY env ≠ "unset" ∧ t ∈ web_tools)
    ∨ (DATA_STORE_ID env ≠ "unset" ∧ t = retrieve_info_tool)
    ∨ t = fallback ∨ t = should_continue.
Proof.
  rewrite get_tools_blocks. unfold general_purpose_tools.
  rewrite !elem_of_app, elem_of_web_block, elem_of_retrieval_block.
  rewrite elem_of_cons, list_elem_of_singleton. tauto.
Qed.

Lemma retrieval_tool_offered (FIN HC : string) (env : environ)
    (sel : option string) :
  retrieve_info_tool ∈ get_tools FIN HC env sel
  ↔ DATA_STORE_ID env ≠ "unset".
Proof.
  rewrite elem_of_get_tools. split.
  - intros [Hin | [[_ Hin] | [[? _] | [? | ?]]]]; try done.
    + by apply elem_of_industry_block in Hin.
    + exfalso. revert Hin. apply (bool_decide_unpack _). vm_compute. exact I.
  - intros Hset. right. right. by left.
Qed.

Lemma search_tool_offered (FIN HC : string) (env : environ)
    (sel : option string) :
  google_search_tool ∈ get_tools FIN HC env sel
  ↔ SERP_API_KEY env ≠ "unset".
Proof.
  rewrite elem_of_get_tools. split.
  - intros [Hin | [[? _] | [[_ ?] | [? | ?]]]]; try done.
    by apply elem_of_industry_block in Hin.
  - intros Hset. right. left. split; [done|]. apply list_elem_of_here.
Qed.

(** X10.  The two feature flags, read off the environment itself: the
    retrieval tool is offered exactly when [DATA_STORE_ID] is present
    with a value other than "unset", the web search tool exactly when
    [SERPER_API_KEY] is; an absent variable counts as "unset", an empty
    value does not.  When the retrieval tool is offered it stands
    directly before the fallback and stop tools. *)
Theorem get_tools_flags_from_environment (FIN HC : string) (env : environ)
    (sel : option string) :
  (retrieve_info_tool ∈ get_tools FIN HC env sel
   ↔ ∃ v, env !! "DATA_STORE_ID" = Some v ∧ v ≠ "unset")
  ∧ (google_search_tool ∈ get_tools FIN HC env sel
     ↔ ∃ v, env !! "SERPER_API_KEY" = Some v ∧ v ≠ "unset")
  ∧ (retrieve_info_tool ∈ get_tools FIN HC env sel →
     ∃ pre, get_tools FIN HC env sel
            = pre ++ [retrieve_info_tool; fallback; should_continue]).
Proof.
  rewrite <- !getenv_default_set.
  change (getenv_default env "DATA_STORE_ID" "unset") with (DATA_STORE_ID env).
  change (getenv_default env "SERPER_API_KEY" "unset") with (SERP_API_KEY env).
  split_and!.
  - apply retrieval_tool_offered.
  - apply search_tool_offered.
  - intros Hin. apply retrieval_tool_offered in Hin.
    rewrite get_tools_blocks. unfold general_purpose_tools.
    destruct (retrieval_block_set env) as [[_ ->] | [? _]]; [|done].
    exists (industry_block FIN HC sel ++ web_block env).
    by rewrite <- app_assoc.
Qed.

(** A concrete run of X10: an empty data-store identifier still switches
    the retrieval tool on. *)
Lemma get_tools_flags_from_environment_witness :
  retrieve_info_tool
  ∈ get_tools "finance" "healthcare" {[ "DATA_STORE_ID" := EmptyString ]} None.
Proof.
  apply (proj1 (get_tools_flags_from_environment "finance" "healthcare"
                  {[ "DATA_STORE_ID" := EmptyString ]} None)).
  exists EmptyString. split; [reflexivity | discriminate].
Defined.

(** X11.  In every configuration the list of [get_tools] keeps the one
    order industry tool, web tools, retrieval tool, fallback, stop: it
    is the catalogue with some tools left out.  So no tool is listed
    twice, and between two and eight tools are listed. *)
Theorem get_tools_keeps_catalogue_order (FIN HC : string) (env : environ)
    (sel : option string) :
  get_tools FIN HC env sel `sublist_of` catalogue
  ∧ NoDup (get_tools FIN HC env sel)
  ∧ 2 ≤ length (get_tools FIN HC env sel) ≤ 8.
Proof.
  pose proof (get_tools_sublist FIN HC env sel) as Hsub.
  split_and!.
  - exact Hsub.
  - eapply sublist_NoDup; [|exact Hsub].
    apply (bool_decide_unpack _). vm_compute. exact I.
  - rewrite get_tools_blocks. unfold general_purpose_tools.
    rewrite !length_app. simpl. lia.
  - rewrite get_tools_blocks. unfold general_purpose_tools.
    rewrite !length_app.
    destruct (industry_block_cases FIN HC sel) as [-> | [-> | ->]];
      destruct (web_block_cases env) as [[_ ->] | [_ ->]];
      destruct (retrieval_block_cases env) as [-> | ->]; simpl; lia.
Qed.

(** X12.  [get_tools] reads two variables of the environment and no
    other: two environments that agree on [SERPER_API_KEY] and on
    [DATA_STORE_ID] give the same list for the same selector.  Test
    mode, in particular, does not change what is offered. *)
Theorem get_tools_reads_two_variables (FIN HC : string)
    (env1 env2 : environ) (sel : option string) :
  env1 !! "SERPER_API_KEY" = env2 !! "SERPER_API_KEY" →
  env1 !! "DATA_STORE_ID" = env2 !! "DATA_STORE_ID" →
  get_tools FIN HC env1 sel = get_tools FIN HC env2 sel.
Proof.
  intros Hs Hd. unfold get_tools, SERP_API_KEY, DATA_STORE_ID, getenv_default.
  by rewrite Hs, Hd.
Qed.

(** A concrete run of X12: the same flags in another region. *)
Lemma get_tools_reads_two_variables_witness :
  Samples.keyed_env !! "SERPER_API_KEY"
  = Samples.keyed_env_elsewhere !! "SERPER_API_KEY"
  ∧ Samples.keyed_env !! "DATA_STORE_ID"
    = Samples.keyed_env_elsewhere !! "DATA_STORE_ID"
  ∧ get_tools "finance" "healthcare" Samples.keyed_env (Some "finance")
    = get_tools "finance" "healthcare" Samples.keyed_env_elsewhere
        (Some "finance").
Proof.
  assert (H1 : Samples.keyed_env !! "SERPER_API_KEY"
               = Samples.keyed_env_elsewhere !! "SERPER_API_KEY")
    by reflexivity.
  assert (H2 : Samples.keyed_env !! "DATA_STORE_ID"
               = Samples.keyed_env_elsewhere !! "DATA_STORE_ID")
    by reflexivity.
  split; [exact H1|]. split; [exact H2|].
  exact (get_tools_reads_two_variables "finance" "healthcare"
           Samples.keyed_env Samples.keyed_env_elsewhere (Some "finance")
           H1 H2).
Defined.

(* ===================================================================== *)
(** ** Further properties of streaming *)
(* ===================================================================== *)

Lemma printed_emit {A} (l : list A) (fin : gen A) :
  printed (emit l fin) = printed fin.
Proof. induction l as [|x l IH]; simpl; by rewrite ?IH. Qed.

Lemma outcome_emit {A} (l : list A) (fin : gen A) :
  outcome (emit l fin) = outcome fin.
Proof. induction l as [|x l IH]; simpl; by rewrite ?IH. Qed.

Lemma loop_A_run (s : stream chunk) :
  for_each s
    (λ c : chunk,
       match c !! "output" with
       | Some output => Yield (<["content" := output]> c) Return
       | None => Return
       end)
  = emit (omap surfaced (items s))
      (if failure s is Some e then Raise e else Return).
Proof.
  induction s as [|e|c s IH]; [done..|]. simpl. rewrite IH.
  unfold surfaced at 2. by destruct (c !! "output").
Qed.

Lemma stream_query_A_outcome
    (exec : executor_input → stream chunk) (input : InnerInputChat) :
  outcome (stream_query_A exec input)
  = unexpected <$>
      match messages input with
      | [] => Some (Exn IndexError "list index out of range" None None)
      | first :: rest => failure (exec (mkExecutorInput first rest))
      end.
Proof.
  destruct (messages input) as [|first rest] eqn:Hmsgs.
  - unfold stream_query_A. by rewrite Hmsgs.
  - rewrite (stream_query_A_unfold exec input first rest Hmsgs).
    rewrite outcome_try_except.
    by rewrite outcome_for_each by apply loop_A_body_quiet.
Qed.

(** X14.  For a chat input with a first message, variant A's
    [stream_query] is fully determined by what the executor streams for
    that message and the remaining history: it yields the surfaced
    chunks in order and then returns if the executor's stream ended, or
    raises the wrapped error if it failed.  It prints nothing, and it
    returns cleanly exactly when the executor's stream ends cleanly. *)
Theorem stream_query_A_run
    (exec : executor_input → stream chunk) (input : InnerInputChat)
    (first : Message) (rest : list Message) :
  messages input = first :: rest →
  let s := exec (mkExecutorInput first rest) in
  stream_query_A exec input
  = emit (omap surfaced (items s))
      (if failure s is Some e then Raise (unexpected e) else Return)
  ∧ printed (stream_query_A exec input) = []
  ∧ (outcome (stream_query_A exec input) = None ↔ failure s = None).
Proof.
  intros Hmsgs s.
  assert (Hrun : stream_query_A exec input
                 = emit (omap surfaced (items s))
                     (if failure s is Some e then Raise (unexpected e)
                      else Return)).
  { rewrite (stream_query_A_unfold exec input first rest Hmsgs).
    fold s. rewrite loop_A_run, try_except_emit. by destruct (failure s). }
  split; [exact Hrun|]. rewrite Hrun, printed_emit, outcome_emit.
  destruct (failure s); by split.
Qed.

(** A concrete run of X14: three chunks and a clean end. *)
Lemma stream_query_A_run_witness :
  messages Samples.one_turn = [Samples.human_hi]
  ∧ stream_query_A Samples.three_chunks Samples.one_turn
    = Yield (<["content" := PStr "hello"]> Samples.final_chunk) Return.
Proof.
  split; [reflexivity|].
  exact (proj1 (stream_query_A_run Samples.three_chunks Samples.one_turn
                  Samples.human_hi [] eq_refl)).
Defined.

(** X15.  Whatever the chat input and whatever the executor does, the
    only exception that leaves [stream_query], in either variant, is a
    [RuntimeError] whose message is "Unexpected error. " followed by the
    text of some original error, which is its cause: no error of the
    executor, and no [IndexError] of an empty input, reaches the
    consumer unwrapped. *)
Theorem stream_query_raises_runtime_error_only (e' : exn) :
  (∀ (exec : executor_input → stream chunk) input,
     outcome (stream_query_A exec input) = Some e' →
     ∃ e, e' = Exn RuntimeError ("Unexpected error. " +:+ exn_str e)
                 (Some e) (Some e))
  ∧ (∀ (exec : InnerInputChat → string → stream unit_) input,
       outcome (stream_query_B exec input) = Some e' →
       ∃ e, e' = Exn RuntimeError ("Unexpected error. " +:+ exn_str e)
                   (Some e) (Some e)).
Proof.
  split; intros exec input.
  - rewrite stream_query_A_outcome.
    destruct (messages input) as [|first rest]; simpl.
    + intros [= <-]. by eexists.
    + destruct (failure _) as [e|]; simpl; [|discriminate].
      intros [= <-]. by exists e.
  - rewrite stream_query_B_outcome.
    destruct (failure _) as [e|]; simpl; [|discriminate].
    intros [= <-]. by exists e.
Qed.

(** A concrete run of X15: a not-found error of the executor comes out
    as a runtime error. *)
Lemma stream_query_raises_runtime_error_only_witness :
  outcome (stream_query_B (λ _ _, Fails Samples.model_missing)
             Samples.one_turn)
  = Some (unexpected Samples.model_missing)
  ∧ ∃ e, unexpected Samples.model_missing
         = Exn RuntimeError ("Unexpected error. " +:+ exn_str e)
             (Some e) (Some e).
Proof.
  assert (Hrun : outcome (stream_query_B (λ _ _, Fails Samples.model_missing)
                            Samples.one_turn)
                 = Some (unexpected Samples.model_missing)) by reflexivity.
  split; [exact Hrun|].
  exact (proj2 (stream_query_raises_runtime_error_only
                  (unexpected Samples.model_missing)) _ _ Hrun).
Defined.

Lemma loop_B_partition (l : list Message) :
  length (List.filter is_assistant l)
  + length (List.filter is_tool_result l)
  + length (List.filter
              (λ m, negb (is_assistant m) && negb (is_tool_result m)) l)
  = length l.
Proof.
  induction l as [|m l IH]; [done|]. simpl.
  destruct (is_assistant m) eqn:Ha.
  - rewrite (assistant_not_tool_result m Ha). simpl. lia.
  - destruct (is_tool_result m); simpl; lia.
Qed.

(** X16.  Variant B accounts for every unit the executor streamed in
    exactly one way: it is forwarded, or reported on standard output,
    or ignored.  The numbers of yielded items, of printed lines and of
    ignored units add up to the number of units streamed. *)
Theorem stream_query_B_accounts_for_units
    (exec : InnerInputChat → string → stream unit_) (input : InnerInputChat) :
  let units := items (exec input "messages") in
  length (yielded (stream_query_B exec input))
  + length (printed (stream_query_B exec input))
  + length (List.filter is_ignored units)
  = length units.
Proof.
  intros units. rewrite stream_query_B_yielded, stream_query_B_printed.
  fold units. rewrite length_fmap.
  assert (Hignored :
    length (List.filter is_ignored units)
    = length (List.filter
                (λ m, negb (is_assistant m) && negb (is_tool_result m))
                units.*1)).
  { clear. induction units as [|[m md] l IH]; [done|]. simpl.
    unfold is_ignored at 1. simpl.
    destruct (negb (is_assistant m) && negb (is_tool_result m)); simpl;
      by rewrite IH. }
  rewrite Hignored, loop_B_partition. apply length_fmap.
Qed.

(** X17.  Variant B forwards messages in the order in which the
    executor streamed them, without repeating or inventing any: what it
    yields is the sequence of leading messages with some left out.  It
    returns cleanly exactly when the executor's stream ends cleanly. *)
Theorem stream_query_B_keeps_order
    (exec : InnerInputChat → string → stream unit_) (input : InnerInputChat) :
  yielded (stream_query_B exec input)
    `sublist_of` (items (exec input "messages")).*1
  ∧ (outcome (stream_query_B exec input) = None
     ↔ failure (exec input "messages") = None).
Proof.
  split.
  - rewrite stream_query_B_yielded.
    induction ((items (exec input "messages")).*1) as [|m l IH]; [done|].
    simpl. destruct (is_assistant m);
      [by apply sublist_skip | by apply sublist_cons].
  - rewrite stream_query_B_outcome. destruct (failure _); by split.
Qed.

Lemma surfaced_keys_once (c y : chunk) :
  surfaced c = Some y →
  dom y = {[ "content" ]} ∪ dom c
  ∧ surfaced y = Some y.
Proof.
  unfold surfaced. destruct (c !! "output") as [v|] eqn:Hout; [|discriminate].
  intros [= <-]. split.
  - apply dom_insert_L.
  - rewrite lookup_insert_ne by done. rewrite Hout.
    by rewrite insert_insert_eq.
Qed.

Lemma omap_surfaced_once (l : list chunk) :
  omap surfaced (omap surfaced l) = omap surfaced l.
Proof.
  induction l as [|c l IH]; [done|]. simpl.
  destruct (surfaced c) as [y|] eqn:Hc; [|done]. simpl.
  destruct (surfaced_keys_once c y Hc) as [_ ->]. f_equal. exact IH.
Qed.

Lemma stream_query_A_yielded
    (exec : executor_input → stream chunk) (input : InnerInputChat)
    (first : Message) (rest : list Message) :
  messages input = first :: rest →
  yielded (stream_query_A exec input)
  = omap surfaced (items (exec (mkExecutorInput first rest))).
Proof.
  intros Hmsgs. rewrite (stream_query_A_unfold exec input first rest Hmsgs).
  rewrite yielded_try_except.
  rewrite yielded_for_each by apply loop_A_body_quiet.
  apply loop_A_yields.
Qed.

(** X18.  What variant A yields is stable under variant A: an executor
    that streams the yielded chunks again gets every one of them back
    unchanged.  And every yielded chunk has the keys of the streamed
    chunk it came from and the key "content", no other. *)
Theorem stream_query_A_yields_fixed_points
    (exec : executor_input → stream chunk) (input : InnerInputChat)
    (first : Message) (rest : list Message) :
  messages input = first :: rest →
  let out := yielded (stream_query_A exec input) in
  yielded (stream_query_A (λ _, produce out Exhausted) input) = out
  ∧ ∀ y, y ∈ out →
      ∃ c, c ∈ items (exec (mkExecutorInput first rest))
           ∧ dom y = {[ "content" ]} ∪ dom c.
Proof.
  intros Hmsgs out. unfold out.
  rewrite (stream_query_A_yielded _ input first rest Hmsgs).
  rewrite (stream_query_A_yielded exec input first rest Hmsgs).
  split.
  - rewrite items_produce. simpl. rewrite app_nil_r.
    apply omap_surfaced_once.
  - intros y Hy. apply list_elem_of_omap in Hy as (c & Hc & Hs).
    exists c. split; [done|]. by apply surfaced_keys_once.
Qed.

(** A concrete run of X18 on the three sample chunks. *)
Lemma stream_query_A_yields_fixed_points_witness :
  messages Samples.one_turn = [Samples.human_hi]
  ∧ yielded
      (stream_query_A
         (λ _, produce
                 (yielded (stream_query_A Samples.three_chunks
                             Samples.one_turn))
                 Exhausted)
         Samples.one_turn)
    = yielded (stream_query_A Samples.three_chunks Samples.one_turn).
Proof.
  split; [reflexivity|].
  exact (proj1 (stream_query_A_yields_fixed_points Samples.three_chunks
                  Samples.one_turn Samples.human_hi [] eq_refl)).
Defined.

(* ===================================================================== *)
(** ** Properties of the server's configuration *)
(* ===================================================================== *)

Import Server.

(** X19.  [configure_cors] always allows exactly one origin, and never
    the empty one: the value of [FRONTEND_URL] when that variable is
    present and not empty, and "http://localhost:4200" when it is absent
    or empty.  Credentials are allowed in either case. *)
Theorem configure_cors_single_origin (env : environ) :
  ∃ url,
    allow_origins (configure_cors env) = [url]
    ∧ url ≠ EmptyString
    ∧ (∀ v, env !! "FRONTEND_URL" = Some v → v ≠ EmptyString → url = v)
    ∧ (env !! "FRONTEND_URL" = None ∨ env !! "FRONTEND_URL" = Some EmptyString
       → url = "http://localhost:4200")
    ∧ allow_credentials (configure_cors env) = true.
Proof.
  unfold configure_cors, getenv.
  destruct (env !! "FRONTEND_URL") as [v|] eqn:Hv; simpl.
  - case_bool_decide as Hempty; eexists; split_and!; try done.
    + intros v' [= <-] Hne. done.
    + intros v' [= <-] _. done.
    + intros [? | [= ->]]; done.
  - eexists. split_and!; done.
Qed.

(** A concrete run of X19: an empty [FRONTEND_URL]. *)
Lemma configure_cors_single_origin_witness :
  allow_origins (configure_cors Samples.blank_frontend_env)
  = ["http://localhost:4200"]
  ∧ allow_origins (configure_cors Samples.frontend_env)
    = ["https://chat.example.org"].
Proof.
  destruct (configure_cors_single_origin Samples.blank_frontend_env)
    as (u1 & H1 & _ & _ & Hd & _).
  destruct (configure_cors_single_origin Samples.frontend_env)
    as (u2 & H2 & _ & Hv & _).
  rewrite H1, H2.
  rewrite (Hd (or_intror eq_refl)).
  rewrite (Hv "https://chat.example.org" eq_refl); [done | discriminate].
Defined.

(* ===================================================================== *)
(** ** Properties of the two concrete managers *)
(* ===================================================================== *)

Lemma init_returned_inv {float model executor : Type}
    (registry_get_tools : string -> string -> result (list tool))
    (ChatVertexAI : AgentConfiguration float -> result model)
    (set_up : AgentConfiguration float -> list tool -> model
              -> result executor)
    (cfg : AgentConfiguration float)
    (mgr : BaseAgentManager float model executor) :
  (init registry_get_tools ChatVertexAI set_up cfg).2 = returned mgr →
  config mgr = cfg
  ∧ registry_get_tools (industry_type cfg) (orchestration_framework cfg)
    = returned (tools mgr)
  ∧ ChatVertexAI cfg = returned (model_obj mgr)
  ∧ set_up cfg (tools mgr) (model_obj mgr) = returned (agent_executor mgr).
Proof.
  pose proof (init_cases registry_get_tools ChatVertexAI set_up cfg) as Hi.
  pose proof (get_model_obj_cases ChatVertexAI cfg) as Hm.
  cbv zeta in Hi. unfold returned, raised in *.
  destruct (registry_get_tools _ _) as [e|ts]; [by rewrite Hi|].
  destruct (ChatVertexAI cfg) as [e|m]; rewrite Hm in Hi; [by rewrite Hi|].
  destruct (set_up cfg ts m) as [e|ex] eqn:Hs; rewrite Hi; simpl;
    [discriminate|].
  by intros [= <-].
Qed.

(** X20.  A LangChain manager that has been constructed is bound to one
    tool set and one configuration: its framework selector is the
    LangChain one, its tools are what the registry returned for its
    industry and that selector, and its executor is the harness built
    around a react agent that was itself built from the manager's own
    prompt, model client and tools, with the same tools and with the
    manager's [return_steps] and [verbose] flags. *)
Theorem langchain_manager_is_bound
    {float model react_agent harness : Type} (LANGCHAIN : string)
    (registry_get_tools : string -> string -> result (list tool))
    (ChatVertexAI : AgentConfiguration float -> result model)
    (langchain_create_react_agent :
       string -> model -> list tool -> result react_agent)
    (AgentExecutor : react_agent -> list tool -> bool -> bool
                     -> result harness)
    (a : ManagerArguments float)
    (mgr : BaseAgentManager float model harness) :
  (LangChainPrebuiltAgentManager LANGCHAIN registry_get_tools ChatVertexAI
     langchain_create_react_agent AgentExecutor a).2 = returned mgr →
  orchestration_framework (config mgr) = LANGCHAIN
  ∧ registry_get_tools (arg_industry_type a) LANGCHAIN = returned (tools mgr)
  ∧ ∃ agent,
      langchain_create_react_agent (arg_prompt a) (model_obj mgr) (tools mgr)
      = returned agent
      ∧ AgentExecutor agent (tools mgr) (arg_return_steps a) (arg_verbose a)
        = returned (agent_executor mgr).
Proof.
  intros Hret. unfold LangChainPrebuiltAgentManager in Hret.
  apply init_returned_inv in Hret as (Hcfg & Htools & _ & Hset).
  rewrite Hcfg. simpl in *. split_and!; [done..|].
  unfold set_up_A in Hset. simpl in Hset.
  destruct (langchain_create_react_agent _ _ _) as [e|agent];
    [discriminate|].
  by exists agent.
Qed.

(** A concrete run of X20. *)
Lemma langchain_manager_is_bound_witness :
  ∃ mgr,
    (LangChainPrebuiltAgentManager "langchain_prebuilt_agent"
       Samples.sample_registry Samples.working_client
       Samples.sample_react Samples.sample_harness
       Samples.sample_arguments).2 = returned mgr
    ∧ orchestration_framework (config mgr) = "langchain_prebuilt_agent"
    ∧ agent_executor mgr = (tools mgr, tools mgr).
Proof.
  eexists. split; [reflexivity|].
  split; [|reflexivity].
  exact (proj1 (langchain_manager_is_bound "langchain_prebuilt_agent"
                  Samples.sample_registry Samples.working_client
                  Samples.sample_react Samples.sample_harness
                  Samples.sample_arguments _ eq_refl)).
Defined.

(** X21.  A LangGraph manager that has been constructed is bound in the
    same way: its framework selector is the LangGraph one, its tools are
    what the registry returned for its industry and that selector, and
    its executor is the graph built from the manager's own prompt, model
    client and tools, with tracing as the [verbose] flag says. *)
Theorem langgraph_manager_is_bound
    {float model graph : Type} (LANGGRAPH : string)
    (registry_get_tools : string -> string -> result (list tool))
    (ChatVertexAI : AgentConfiguration float -> result model)
    (langgraph_create_react_agent :
       string -> model -> list tool -> bool -> result graph)
    (a : ManagerArguments float)
    (mgr : BaseAgentManager float model graph) :
  (LangGraphPrebuiltAgentManager LANGGRAPH registry_get_tools ChatVertexAI
     langgraph_create_react_agent a).2 = returned mgr →
  orchestration_framework (config mgr) = LANGGRAPH
  ∧ registry_get_tools (arg_industry_type a) LANGGRAPH = returned (tools mgr)
  ∧ langgraph_create_react_agent (arg_prompt a) (model_obj mgr) (tools mgr)
      (arg_verbose a)
    = returned (agent_executor mgr).
Proof.
  intros Hret. unfold LangGraphPrebuiltAgentManager in Hret.
  apply init_returned_inv in Hret as (Hcfg & Htools & _ & Hset).
  rewrite Hcfg. simpl in *. by split_and!.
Qed.

(** A concrete run of X21. *)
Lemma langgraph_manager_is_bound_witness :
  ∃ mgr,
    (LangGraphPrebuiltAgentManager "langgraph_prebuilt_agent"
       Samples.sample_registry Samples.working_client
       Samples.sample_graph Samples.sample_arguments).2 = returned mgr
    ∧ orchestration_framework (config mgr) = "langgraph_prebuilt_agent"
    ∧ agent_executor mgr = tools mgr.
Proof.
  eexists. split; [reflexivity|].
  split; [|reflexivity].
  exact (proj1 (langgraph_manager_is_bound "langgraph_prebuilt_agent"
                  Samples.sample_registry Samples.working_client
                  Samples.sample_graph Samples.sample_arguments _ eq_refl)).
Defined.
